(** * MDAnalysis: unit conversion ([MDAnalysis/core/units.py]) and the H5MD
    reader stub ([MDAnalysis/coordinates/H5MD.py])

    A shallow embedding of the two Python modules and the verification of
    their specification.

    Python floats are IEEE 754 binary64 numbers: they are modelled by Rocq's
    primitive floats ([PrimFloat.float]), whose literals are rounded to the
    nearest binary64 value as Python's are and whose [+], [*], [/] are the
    correctly rounded IEEE operations.  Rocq's floats have a single NaN: the
    payload and the signalling bit of a Python NaN are not modelled, and
    "NaN" below means "some NaN".  Python dictionaries are stdpp [gmap]s
    keyed by (byte) strings.  Python exceptions are values of [exn]; a
    computation that may raise returns a [result].  The value handed to
    [convert] is a [value]: a float, an integer of any size, or a
    [decimal.Decimal]. *)

From Stdlib Require Import Ascii Floats QArith Qabs.
From stdpp Require Import gmap strings list fin_maps.

Set Warnings "-inexact-float".

(** ** Python exceptions and fallible computations *)

Module Py.

(** The two messages [units.convert] formats, with the values that are
    interpolated into them:
    ["units must be one of %r, not %r or %r" % (unit_types.keys(), u1, u2)]
    and ["Cannot convert between unit types %(ut1)s --> %(ut2)s" % vars()]. *)
Inductive message : Type :=
| UnitsMustBeOneOf (known : list string) (u1 u2 : string)
| CannotConvert (ut1 ut2 : string).

(** The exceptions the two modules can raise.  A [KeyError] carries the
    missing key and nothing else ([KeyError(k).args == (k,)]). *)
Inductive exn : Type :=
| KeyError (key : string)
| ValueError (msg : message)
| ZeroDivisionError
| OverflowError
| TypeError (text : string).

Inductive result (A : Type) : Type :=
| Return (a : A)
| Raise (e : exn).
Arguments Return {A} a.
Arguments Raise {A} e.

#[global] Instance result_ret : MRet result := @Return.
#[global] Instance result_bind : MBind result := fun A B f r =>
  match r with
  | Return a => f a
  | Raise e => Raise e
  end.

(** [d[k]]: subscription of a dictionary. *)
Definition getitem {V : Type} (d : gmap string V) (k : string) : result V :=
  match d !! k with
  | Some v => Return v
  | None => Raise (KeyError k)
  end.

(** [a / b] on floats: Python raises where IEEE 754 would return an infinity
    or a NaN for a zero divisor (of either sign). *)
Definition truediv (a b : float) : result float :=
  if (b =? 0)%float then Raise ZeroDivisionError else Return (a / b)%float.

(** The values [convert] is handed as [x]: a float, an integer ([int] or
    [long], [bool] included) or a [decimal.Decimal] (its coefficient and
    exponent).  Other numeric types (complex numbers, fractions, arrays) are
    outside the model. *)
Inductive value : Type :=
| PyFloat (x : float)
| PyInt (n : Z)
| PyDecimal (coefficient exponent : Z).

(** [float(n)] as the float operations apply it to an integer operand: the
    integer is rounded to the nearest binary64 value, ties to even, and an
    integer that rounds beyond the largest float raises [OverflowError]
    ("long int too large to convert to float"). *)
Definition int_to_float (n : Z) : result float :=
  match binary_normalize prec emax n 0 false with
  | S754_infinity _ => Raise OverflowError
  | sf => Return (SF2Prim sf)
  end.

(** [x * f] for a float [f]: the product of two floats; an integer is
    converted to a float first; [Decimal.__mul__] and [float.__rmul__] both
    decline the other operand, which raises [TypeError] (with the message of
    Python 2; later versions name the type ['decimal.Decimal']). *)
Definition multiply (x : value) (f : float) : result value :=
  match x with
  | PyFloat a => Return (PyFloat (a * f)%float)
  | PyInt n => a ← int_to_float n; Return (PyFloat (a * f)%float)
  | PyDecimal _ _ =>
      Raise (TypeError
               "unsupported operand type(s) for *: 'Decimal' and 'float'")
  end.

(** A dictionary display [{k1: e1, k2: e2, ...}]: the entries are evaluated
    and stored from left to right, so a later duplicate key would win. *)
Fixpoint dict_fill {V : Type} (acc : gmap string V)
    (entries : list (string * result V)) : result (gmap string V) :=
  match entries with
  | [] => Return acc
  | (k, e) :: rest => v ← e; dict_fill (<[k := v]> acc) rest
  end.

Definition dict {V : Type} (entries : list (string * result V))
    : result (gmap string V) :=
  dict_fill ∅ entries.

(** [d.items()] and [d.keys()].  Python 2 lists the entries of a dictionary
    in an order the language leaves open; the model lists them in the order
    of [map_to_list].  Nothing below depends on that choice (see
    [build_unit_types] and the theorem on scan orders). *)
Definition items {V : Type} (d : gmap string V) : list (string * V) :=
  map_to_list d.

Definition keys {V : Type} (d : gmap string V) : list string :=
  (map_to_list d).*1.

End Py.

(** ** [MDAnalysis/core/units.py] *)

Module Units.
Import Py.

Local Open Scope float_scope.

(** The key ['Å'] of the source file (coding: utf-8): the two bytes
    [0xC3 0x85]. *)
Definition A_ring : string :=
  String "195"%char (String "133"%char EmptyString).

(** The module's global names, as they are bound once the module body has
    run (the loop variables [utype], [ufactor] and [unit] are left out:
    no function reads them). *)
Record Globals : Type := {
  lengthUnit_factor : gmap string float;
  N_Avogadro : float;
  water : gmap string float;
  densityUnit_factor : gmap string float;
  timeUnit_factor : gmap string float;
  conversion_factor : gmap string (gmap string float);
  unit_types : gmap string string
}.

(** The expression [1/(1e-24*N_Avogadro*water[model] / water['MolarMass'])]
    that the density table repeats for each water model.  Python evaluates
    [1e-24*N_Avogadro*water[model]] from left to right, divides it by
    [water['MolarMass']], and divides 1 by the quotient. *)
Definition water_model_factor (N_Avogadro : float) (water : gmap string float)
    (model : string) : result float :=
  rho ← getitem water model;
  M ← getitem water "MolarMass";
  d ← truediv (1e-24 * N_Avogadro * rho) M;
  truediv 1 d.

(** The loop
<<
    unit_types = {}
    for utype,ufactor in conversion_factor.items():
        for unit in ufactor.keys():
            unit_types[unit] = utype
>>
    over the orders [items_of] and [keys_of] in which the dictionaries list
    their entries. *)
Definition build_unit_types
    (items_of : gmap string (gmap string float) →
                list (string * gmap string float))
    (keys_of : gmap string float → list string)
    (conversion_factor : gmap string (gmap string float))
    : gmap string string :=
  foldl (fun unit_types '(utype, ufactor) =>
           foldl (fun unit_types unit => <[unit := utype]> unit_types)
                 unit_types (keys_of ufactor))
        ∅ (items_of conversion_factor).

(** The assignments [unit_types[unit] = utype] of a scan, in the order in
    which the scan makes them. *)
Definition assignments
    (tables : list (string * gmap string float))
    (keys_of : gmap string float → list string) : list (string * string) :=
  tables ≫= (fun '(utype, ufactor) =>
               (fun unit => (unit, utype)) <$> keys_of ufactor).

(** The module body, statement by statement. *)
Definition load_module : result Globals :=
  lengthUnit_factor ← dict [
    ("Angstrom", Return 1.0); ("A", Return 1.0); (A_ring, Return 1.0);
    ("nm", truediv 1.0 10); ("nanometer", truediv 1.0 10) ];
  let N_Avogadro := 6.02214179e+23 in
  water ← dict [
    ("exp", Return 0.997); ("SPC", Return 0.985); ("TIP3P", Return 1.002);
    ("TIP4P", Return 1.001);
    ("MolarMass", Return 18.016) ];
  densityUnit_factor ← dict [
    ("Angstrom^{-3}", truediv 1 1.0); ("A^{-3}", truediv 1 1.0);
    (A_ring +:+ "^{-3}", truediv 1 1.0);
    ("nm^{-3}", truediv 1 1e-3); ("nanometer^{-3}", truediv 1 1e-3);
    ("Molar", truediv 1 (1e-27 * N_Avogadro));
    ("SPC", water_model_factor N_Avogadro water "SPC");
    ("TIP3P", water_model_factor N_Avogadro water "TIP3P");
    ("TIP4P", water_model_factor N_Avogadro water "TIP4P");
    ("water", water_model_factor N_Avogadro water "exp") ];
  timeUnit_factor ← dict [
    ("ps", truediv 1 1.0);
    ("ns", truediv 1 1e3);
    ("second", truediv 1 1e12);
    ("AKMA", truediv 1 4.888821e-2) ];
  conversion_factor ← dict [
    ("length", Return lengthUnit_factor);
    ("density", Return densityUnit_factor);
    ("time", Return timeUnit_factor) ];
  let unit_types := build_unit_types items keys conversion_factor in
  Return {| lengthUnit_factor := lengthUnit_factor;
            N_Avogadro := N_Avogadro;
            water := water;
            densityUnit_factor := densityUnit_factor;
            timeUnit_factor := timeUnit_factor;
            conversion_factor := conversion_factor;
            unit_types := unit_types |}.

(** The namespace of a module whose body has not run. *)
Definition unloaded : Globals :=
  {| lengthUnit_factor := ∅; N_Avogadro := 0; water := ∅;
     densityUnit_factor := ∅; timeUnit_factor := ∅;
     conversion_factor := ∅; unit_types := ∅ |}.

(** The module as imported: the globals the module body leaves (that the
    body does not raise is [load_module_returns] below). *)
Definition units : Globals :=
  match load_module with
  | Return g => g
  | Raise _ => unloaded
  end.

(** Functions of the module run against the module's globals: a computation
    takes the globals, and returns a value or raises, together with the
    globals it leaves. *)
Definition M (A : Type) : Type := Globals → result A * Globals.

#[global] Instance M_ret : MRet M := fun A a g => (Return a, g).
#[global] Instance M_bind : MBind M := fun A B f m g =>
  match m g with
  | (Return a, g') => f a g'
  | (Raise e, g') => (Raise e, g')
  end.

(** Reading a global name. *)
Definition global {A : Type} (name : Globals → A) : M A :=
  fun g => (Return (name g), g).

Definition raise {A : Type} (e : exn) : M A := fun g => (Raise e, g).

(** An operation that returns or raises without touching the globals. *)
Definition lift {A : Type} (r : result A) : M A := fun g => (r, g).

(** [try: body  except KeyError: handler]. *)
Definition try_except_KeyError {A : Type} (body handler : M A) : M A :=
  fun g =>
    match body g with
    | (Raise (KeyError _), g') => handler g'
    | r => r
    end.

(** [return conversion_factor[unit_type][u2] / conversion_factor[unit_type][u1]]:
    the left operand is evaluated first. *)
Definition get_conversion_factor (unit_type u1 u2 : string) : M float :=
  tables ← global conversion_factor;
  table ← lift (getitem tables unit_type);
  f2 ← lift (getitem table u2);
  tables ← global conversion_factor;
  table ← lift (getitem tables unit_type);
  f1 ← lift (getitem table u1);
  lift (truediv f2 f1).

Definition convert (x : value) (u1 u2 : string) : M value :=
  uts ← try_except_KeyError
    (types ← global unit_types;
     ut1 ← lift (getitem types u1);
     types ← global unit_types;
     ut2 ← lift (getitem types u2);
     mret (ut1, ut2))
    (types ← global unit_types;
     raise (ValueError (UnitsMustBeOneOf (keys types) u1 u2)));
  let '(ut1, ut2) := uts in
  if bool_decide (ut1 ≠ ut2)
  then raise (ValueError (CannotConvert ut1 ut2))
  else
    f ← get_conversion_factor ut1 u1 u2;
    lift (multiply x f).

End Units.

(** ** [MDAnalysis/coordinates/H5MD.py] *)

Module H5MD.
Import Py.

Section Reader.
(** [base.Timestep] and the [h5py.File] handle come from modules outside
    this excerpt; the reader only stores them. *)
Variables Timestep H5File : Type.

(** An [H5MDReader] object: its class name ([self.__class__.__name__],
    ["H5MDReader"] unless a subclass is instantiated) and the attributes
    [__init__] sets. *)
Record H5MDReader : Type := {
  class_name : string;
  filename : string;
  _n_atoms : option Z;
  _n_frames : option Z;
  trjfile : option H5File;
  ts : Timestep;
  h5mdfile : H5File
}.

(** [_read_frame(self, frame)]: the [raise] is the first and only statement
    that runs; the method returns the reader as it leaves it. *)
Definition _read_frame (self : H5MDReader) (frame : Z)
    : result Timestep * H5MDReader :=
  (Raise (TypeError
            (class_name self +:+ " does not support direct frame indexing.")),
   self).

End Reader.

Arguments class_name {Timestep H5File} _.
Arguments _read_frame {Timestep H5File} self frame.

End H5MD.

(** ** The specification's vocabulary *)

Module Spec.
Import Py Units.

Local Open Scope float_scope.

(** A unit name is registered under a quantity type when the type's
    table holds it; it is registered when some table holds it. *)
Definition registered_under (T u : string) : Prop :=
  ∃ tbl, conversion_factor units !! T = Some tbl ∧ is_Some (tbl !! u).

Definition registered (u : string) : Prop := ∃ T, registered_under T u.

(** The error taxonomy of the specification (section 7).  The Python code
    has no exception classes of its own: an unknown unit shows as the
    [ValueError] "units must be one of ..." of [convert] or as the
    [KeyError] of a table lookup, a conversion across quantity types as the
    [ValueError] "Cannot convert between unit types ...". *)
Inductive error_kind : Type :=
| UnknownUnitError
| IncompatibleUnitsError.

Definition kind_of (e : exn) : option error_kind :=
  match e with
  | KeyError _ => Some UnknownUnitError
  | ValueError (UnitsMustBeOneOf _ _ _) => Some UnknownUnitError
  | ValueError (CannotConvert _ _) => Some IncompatibleUnitsError
  | ZeroDivisionError | OverflowError | TypeError _ => None
  end.

(** The unit names an exception carries. *)
Definition names_carried (e : exn) : list string :=
  match e with
  | KeyError k => [k]
  | ValueError (UnitsMustBeOneOf _ u1 u2) => [u1; u2]
  | ValueError (CannotConvert _ _)
  | ZeroDivisionError | OverflowError | TypeError _ => []
  end.

(** The collection of known unit names an exception carries, if any. *)
Definition known_units_carried (e : exn) : option (list string) :=
  match e with
  | ValueError (UnitsMustBeOneOf known _ _) => Some known
  | KeyError _ | ValueError (CannotConvert _ _)
  | ZeroDivisionError | OverflowError | TypeError _ => None
  end.

(** The specification's account of a failed factor lookup, at one input:
    when [u1] or [u2] is missing from the table of [T], the lookup fails
    with the unknown-unit error, and the error carries a missing name and
    the known unit names. *)
Definition lookup_failure_carries_known_units (T u1 u2 : string) : Prop :=
  ∀ tbl, conversion_factor units !! T = Some tbl →
         tbl !! u1 = None ∨ tbl !! u2 = None →
         ∃ e name known,
           get_conversion_factor T u1 u2 units = (Raise e, units) ∧
           kind_of e = Some UnknownUnitError ∧
           name ∈ names_carried e ∧ tbl !! name = None ∧
           known_units_carried e = Some known ∧
           ∀ u, u ∈ known ↔ registered u.

(** The specification's account of [convert] on two names registered under
    one quantity type, at one input: no error is raised. *)
Definition no_error_when_compatible (x : value) (u1 u2 : string) : Prop :=
  ∀ T, registered_under T u1 → registered_under T u2 →
       ∃ v, convert x u1 u2 units = (Return v, units).

(** The specification's account of the failures of [convert], at one input:
    an exception [convert] raises is the unknown-unit error or the
    incompatible-units error of [convert] itself. *)
Definition only_checked_failures (x : value) (u1 u2 : string) : Prop :=
  ∀ e g, convert x u1 u2 units = (Raise e, g) →
         (∃ known, e = ValueError (UnitsMustBeOneOf known u1 u2)) ∨
         (∃ T1 T2, e = ValueError (CannotConvert T1 T2)).

(** The tables of section 4.1, each factor written as the specification
    writes it. *)
Definition contractual_length : list (string * float) :=
  [ ("Angstrom", 1.0); ("A", 1.0); (A_ring, 1.0);
    ("nm", 0.1); ("nanometer", 0.1) ].

Definition contractual_time : list (string * float) :=
  [ ("ps", 1.0); ("ns", 1e-3); ("second", 1e-12);
    ("AKMA", 1 / 4.888821e-2) ].

Definition contractual_density : list (string * float) :=
  [ ("Angstrom^{-3}", 1.0); ("A^{-3}", 1.0); (A_ring +:+ "^{-3}", 1.0);
    ("nm^{-3}", 1000.0); ("nanometer^{-3}", 1000.0);
    ("Molar", 1 / (1e-27 * 6.02214179e+23));
    ("SPC", 1 / (1e-24 * 6.02214179e+23 * 0.985 / 18.016));
    ("TIP3P", 1 / (1e-24 * 6.02214179e+23 * 1.002 / 18.016));
    ("TIP4P", 1 / (1e-24 * 6.02214179e+23 * 1.001 / 18.016));
    ("water", 1 / (1e-24 * 6.02214179e+23 * 0.997 / 18.016)) ].

(** The registry of section 4.1 as one list of (quantity type, unit name,
    scale factor). *)
Definition contractual_registry : list (string * string * float) :=
  ((fun '(u, f) => ("length", u, f)) <$> contractual_length) ++
  ((fun '(u, f) => ("density", u, f)) <$> contractual_density) ++
  ((fun '(u, f) => ("time", u, f)) <$> contractual_time).

(** The exact rational value of a finite float. *)
Definition float_to_Q (f : float) : option Q :=
  match Prim2SF f with
  | S754_zero _ => Some 0%Q
  | S754_finite s m e =>
      Some ((if s then (-1)%Q else 1%Q) * inject_Z (Z.pos m) * (2 ^ e))%Q
  | S754_infinity _ | S754_nan => None
  end.

(** [a == b] within the relative tolerance [tol]: |a - b| <= tol * |b|,
    over the exact values. *)
Definition within_rel_tol (tol : Q) (a b : Q) : bool :=
  Qle_bool (Qabs (a - b)) (tol * Qabs b).

Definition float_within_rel_tol (tol : Q) (a : float) (b : Q) : bool :=
  match float_to_Q a with
  | Some qa => within_rel_tol tol qa b
  | None => false
  end.

End Spec.

(** ** Further vocabulary: class attributes, signs, exact values *)

Module H5MDReader_class.

(** The class attributes of [H5MDReader]:
<<
    format = ['h5', 'h5md']
    units = {'time': 'ps', 'length': 'Angstrom'}
>>
    The dictionary display stores its two constant entries from left to
    right. *)
Definition format : list string := ["h5"; "h5md"].

Definition units : gmap string string :=
  <["length" := "Angstrom"]> (<["time" := "ps"]> ∅).

End H5MDReader_class.

Module Exact.
Import Py Units.

(** The sign bit of a float: [Some true] for a negative number, zero or
    infinity, [Some false] for a positive one, [None] for a NaN. *)
Definition sign_of (x : float) : option bool :=
  match Prim2SF x with
  | S754_zero s | S754_infinity s | S754_finite s _ _ => Some s
  | S754_nan => None
  end.

(** The expressions of the three tables of [units.py], read as exact
    arithmetic on the decimal numbers the source spells (no rounding). *)
Definition exact_length : list (string * Q) :=
  [ ("Angstrom", 1.0); ("A", 1.0); (A_ring, 1.0);
    ("nm", 1.0 / 10); ("nanometer", 1.0 / 10) ]%Q.

Definition exact_density : list (string * Q) :=
  [ ("Angstrom^{-3}", 1 / 1.0); ("A^{-3}", 1 / 1.0);
    (A_ring +:+ "^{-3}", 1 / 1.0);
    ("nm^{-3}", 1 / 1e-3); ("nanometer^{-3}", 1 / 1e-3);
    ("Molar", 1 / (1e-27 * 6.02214179e+23));
    ("SPC", 1 / (1e-24 * 6.02214179e+23 * 0.985 / 18.016));
    ("TIP3P", 1 / (1e-24 * 6.02214179e+23 * 1.002 / 18.016));
    ("TIP4P", 1 / (1e-24 * 6.02214179e+23 * 1.001 / 18.016));
    ("water", 1 / (1e-24 * 6.02214179e+23 * 0.997 / 18.016)) ]%Q.

Definition exact_time : list (string * Q) :=
  [ ("ps", 1 / 1.0); ("ns", 1 / 1e3); ("second", 1 / 1e12);
    ("AKMA", 1 / 4.888821e-2) ]%Q.

Definition exact_registry : list (string * string * Q) :=
  ((fun '(u, q) => ("length", u, q)) <$> exact_length) ++
  ((fun '(u, q) => ("density", u, q)) <$> exact_density) ++
  ((fun '(u, q) => ("time", u, q)) <$> exact_time).

End Exact.

Import Py Units H5MD Spec Exact.
Open Scope float_scope.

(** The imported module is only ever evaluated as a whole (by [vm_compute]);
    proof search has no use for unfolding it. *)
#[global] Opaque units.

(** ** The functions leave the globals alone *)

Section Purity.

(** What [get_conversion_factor] computes, read off the globals it is run
    against; the globals come back as they were. *)
Lemma get_conversion_factor_run (unit_type u1 u2 : string) (g : Globals) :
  get_conversion_factor unit_type u1 u2 g =
  (table ← getitem (conversion_factor g) unit_type;
   f2 ← getitem table u2;
   table' ← getitem (conversion_factor g) unit_type;
   f1 ← getitem table' u1;
   truediv f2 f1,
   g).
Proof.
  unfold get_conversion_factor, global, lift, mbind, M_bind, result_bind.
  destruct (getitem (conversion_factor g) unit_type) as [table|e];
    [|reflexivity].
  destruct (getitem table u2) as [f2|e]; [|reflexivity].
  destruct (getitem table u1) as [f1|e]; reflexivity.
Qed.

Lemma convert_run (x : value) (u1 u2 : string) (g : Globals) :
  convert x u1 u2 g =
  (match unit_types g !! u1, unit_types g !! u2 with
   | Some ut1, Some ut2 =>
       if bool_decide (ut1 ≠ ut2)
       then Raise (ValueError (CannotConvert ut1 ut2))
       else f ← (get_conversion_factor ut1 u1 u2 g).1; multiply x f
   | _, _ => Raise (ValueError (UnitsMustBeOneOf (keys (unit_types g)) u1 u2))
   end,
   g).
Proof.
  cbv [convert try_except_KeyError global lift raise getitem
       mbind M_bind mret M_ret].
  destruct (unit_types g !! u1) as [ut1|]; [|reflexivity].
  destruct (unit_types g !! u2) as [ut2|]; [|reflexivity].
  case_bool_decide; [reflexivity|].
  by destruct (get_conversion_factor ut1 u1 u2 g) as [[f|e] g'] eqn:E;
    rewrite get_conversion_factor_run in E; injection E as _ <-.
Qed.

End Purity.

(** ** The registry the module builds *)

Section Registry.

(** The module body runs to its end: importing the module raises nothing. *)
Lemma load_module_returns : load_module = Return units.
Proof. vm_cast_no_check (eq_refl (Return units)). Qed.

Lemma length_table :
  lengthUnit_factor units = list_to_map contractual_length.
Proof.
  vm_cast_no_check
    (eq_refl (list_to_map contractual_length : gmap string float)).
Qed.

Lemma density_table :
  densityUnit_factor units = list_to_map contractual_density.
Proof.
  vm_cast_no_check
    (eq_refl (list_to_map contractual_density : gmap string float)).
Qed.

Lemma time_table :
  timeUnit_factor units = list_to_map contractual_time.
Proof.
  vm_cast_no_check
    (eq_refl (list_to_map contractual_time : gmap string float)).
Qed.

Lemma conversion_factor_length :
  conversion_factor units !! "length" = Some (lengthUnit_factor units).
Proof. vm_cast_no_check (eq_refl (Some (lengthUnit_factor units))). Qed.

Lemma conversion_factor_density :
  conversion_factor units !! "density" = Some (densityUnit_factor units).
Proof. vm_cast_no_check (eq_refl (Some (densityUnit_factor units))). Qed.

Lemma conversion_factor_time :
  conversion_factor units !! "time" = Some (timeUnit_factor units).
Proof. vm_cast_no_check (eq_refl (Some (timeUnit_factor units))). Qed.

(** The three tables, and no other, are registered. *)
Lemma conversion_factor_keys :
  keys (conversion_factor units) ≡ₚ ["length"; "density"; "time"].
Proof.
  assert (keys (conversion_factor units) = ["length"; "time"; "density"])
    as -> by (vm_compute; reflexivity).
  apply perm_skip, perm_swap.
Qed.

Lemma unit_types_built :
  unit_types units = build_unit_types items keys (conversion_factor units).
Proof.
  vm_cast_no_check
    (eq_refl (build_unit_types items keys (conversion_factor units))).
Qed.

(** The float literals of the module denote the decimal numbers they
    spell, each rounded to binary64 with a relative error of at most
    2^-53. *)
Lemma literals_correctly_rounded :
  forallb (fun '(literal, decimal) =>
             float_within_rel_tol (1 # 2 ^ 53) literal decimal)
    [ (1.0, 1.0%Q); (10, 10%Q); (0.1, 0.1%Q);
      (6.02214179e+23, 6.02214179e+23%Q);
      (0.997, 0.997%Q); (0.985, 0.985%Q); (1.002, 1.002%Q);
      (1.001, 1.001%Q); (18.016, 18.016%Q);
      (1e-3, 1e-3%Q); (1000.0, 1000.0%Q);
      (1e-27, 1e-27%Q); (1e-24, 1e-24%Q);
      (1e3, 1e3%Q); (1e12, 1e12%Q); (1e-12, 1e-12%Q);
      (4.888821e-2, 4.888821e-2%Q) ] = true.
Proof. vm_compute. reflexivity. Qed.

Lemma contractual_length_NoDup : NoDup (contractual_length.*1).
Proof. apply (bool_decide_unpack _). vm_compute. exact I. Qed.

Lemma contractual_density_NoDup : NoDup (contractual_density.*1).
Proof. apply (bool_decide_unpack _). vm_compute. exact I. Qed.

Lemma contractual_time_NoDup : NoDup (contractual_time.*1).
Proof. apply (bool_decide_unpack _). vm_compute. exact I. Qed.

(** Every entry of the tables is one of the listed ones. *)
Lemma registered_listed (T u : string) (tbl : gmap string float) (f : float) :
  conversion_factor units !! T = Some tbl → tbl !! u = Some f →
  (T, u, f) ∈ contractual_registry.
Proof.
  intros HT Hu.
  assert (T ∈ keys (conversion_factor units)) as HK.
  { unfold keys. apply list_elem_of_fmap. exists (T, tbl).
    split; [done|]. by apply elem_of_map_to_list. }
  rewrite conversion_factor_keys in HK.
  unfold contractual_registry. rewrite !elem_of_app.
  rewrite !elem_of_cons, elem_of_nil in HK.
  destruct HK as [->|[->|[->|[]]]].
  - rewrite conversion_factor_length in HT. injection HT as <-.
    rewrite length_table in Hu. apply elem_of_list_to_map_2 in Hu.
    left.
    apply (list_elem_of_fmap_2 (fun '(u, f) => ("length", u, f)) _ (u, f) Hu).
  - rewrite conversion_factor_density in HT. injection HT as <-.
    rewrite density_table in Hu. apply elem_of_list_to_map_2 in Hu.
    right; left.
    apply (list_elem_of_fmap_2 (fun '(u, f) => ("density", u, f)) _ (u, f) Hu).
  - rewrite conversion_factor_time in HT. injection HT as <-.
    rewrite time_table in Hu. apply elem_of_list_to_map_2 in Hu.
    right; right.
    apply (list_elem_of_fmap_2 (fun '(u, f) => ("time", u, f)) _ (u, f) Hu).
Qed.

(** A property of the listed entries holds of every registered unit. *)
Lemma registered_Forall (P : string → string → float → Prop) :
  Forall (fun '(T, u, f) => P T u f) contractual_registry →
  ∀ T u tbl f,
    conversion_factor units !! T = Some tbl → tbl !! u = Some f → P T u f.
Proof.
  intros HP T u tbl f HT Hu.
  rewrite Forall_forall in HP.
  apply (HP (T, u, f)), (registered_listed T u tbl f HT Hu).
Qed.

(** Every listed entry is registered. *)
Lemma listed_registered (T u : string) (f : float) :
  (T, u, f) ∈ contractual_registry →
  ∃ tbl, conversion_factor units !! T = Some tbl ∧ tbl !! u = Some f.
Proof.
  unfold contractual_registry. rewrite !elem_of_app.
  intros [Hin|[Hin|Hin]];
    apply list_elem_of_fmap in Hin as [[u' f'] [Heq Hin]];
    injection Heq as -> -> ->.
  - exists (lengthUnit_factor units). split; [apply conversion_factor_length|].
    rewrite length_table.
    by apply elem_of_list_to_map_1; [apply contractual_length_NoDup|].
  - exists (densityUnit_factor units). split; [apply conversion_factor_density|].
    rewrite density_table.
    by apply elem_of_list_to_map_1; [apply contractual_density_NoDup|].
  - exists (timeUnit_factor units). split; [apply conversion_factor_time|].
    rewrite time_table.
    by apply elem_of_list_to_map_1; [apply contractual_time_NoDup|].
Qed.

End Registry.

(** ** The reverse index *)

Section ReverseIndex.

Lemma build_unit_types_assignments items_of keys_of conversion_factor :
  build_unit_types items_of keys_of conversion_factor =
  foldl (fun m '(unit, utype) => <[unit := utype]> m) ∅
        (assignments (items_of conversion_factor) keys_of).
Proof.
  unfold build_unit_types, assignments.
  generalize (∅ : gmap string string).
  induction (items_of conversion_factor) as [|[utype ufactor] rest IH];
    intros acc; [reflexivity|].
  simpl. rewrite foldl_app, <- IH. f_equal.
  generalize acc. clear.
  induction (keys_of ufactor) as [|unit ks IH]; intros acc; [reflexivity|].
  simpl. apply IH.
Qed.

(** A run of assignments in which no name is assigned two different types
    leaves each assigned name with its type, and the other names as they
    were. *)
Lemma assignments_lookup (l : list (string * string)) (acc : gmap string string)
    (u t : string) :
  (∀ u t t', (u, t) ∈ l → (u, t') ∈ l → t = t') →
  (foldl (fun m '(unit, utype) => <[unit := utype]> m) acc l) !! u = Some t ↔
  (u, t) ∈ l ∨ ((u ∉ l.*1) ∧ acc !! u = Some t).
Proof.
  revert acc. induction l as [|[u0 t0] l IH]; intros acc Hfun; simpl.
  - rewrite elem_of_nil. split; [intros H; right; split; [apply not_elem_of_nil|done]|].
    intros [[]|[_ H]]; done.
  - rewrite IH by (intros u' t' t'' H1 H2; apply (Hfun u'); by right).
    rewrite !elem_of_cons. split.
    + intros [H|[Hn H]]; [by left; right|].
      destruct (decide (u0 = u)) as [->|Hne].
      * rewrite lookup_insert_eq in H. injection H as ->. by left; left.
      * rewrite lookup_insert_ne in H by done. right. split; [|done].
        intros [Heq|Hin]; [congruence|exact (Hn Hin)].
    + intros [[H|H]|[Hn H]].
      * injection H as -> ->.
        destruct (decide (u0 ∈ l.*1)) as [Hin|Hnin].
        -- left. apply list_elem_of_fmap in Hin as [[u' t'] [-> Hin]].
           simpl. rewrite (Hfun u' t0 t'); [done|by left|by right].
        -- right. split; [done|]. apply lookup_insert_eq.
      * by left.
      * right. split; [intros Hin; apply Hn; by right|].
        rewrite lookup_insert_ne; [done|]. intros ->. apply Hn. by left.
Qed.

Lemma elem_of_assignments tables keys_of (u t : string) :
  (u, t) ∈ assignments tables keys_of ↔
  ∃ tbl, (t, tbl) ∈ tables ∧ u ∈ keys_of tbl.
Proof.
  unfold assignments. rewrite list_elem_of_bind. split.
  - intros [[t' tbl] [Hin Htbl]].
    apply list_elem_of_fmap in Hin as [u' [Heq Hin]].
    injection Heq as -> ->. by exists tbl.
  - intros [tbl [Htbl Hin]]. exists (t, tbl). split; [|done].
    by apply (list_elem_of_fmap_2 (fun unit => (unit, t))).
Qed.

Lemma elem_of_keys (tbl : gmap string float) (u : string) :
  u ∈ keys tbl ↔ is_Some (tbl !! u).
Proof.
  unfold keys. rewrite list_elem_of_fmap. split.
  - intros [[u' f] [-> Hin]]. apply elem_of_map_to_list in Hin. by exists f.
  - intros [f Hf]. exists (u, f). split; [done|]. by apply elem_of_map_to_list.
Qed.

(** No unit name is listed under two quantity types. *)
Lemma listed_owner_unique :
  Forall (fun '(T1, u1, _) =>
    Forall (fun '(T2, u2, _) => u1 = u2 → T1 = T2) contractual_registry)
    contractual_registry.
Proof.
  assert (∀ l1 l2 : list (string * string * float),
            forallb (fun '(T1, u1, _) =>
              forallb (fun '(T2, u2, _) =>
                implb (String.eqb u1 u2) (String.eqb T1 T2)) l2) l1 = true →
            Forall (fun '(T1, u1, _) =>
              Forall (fun '(T2, u2, _) => u1 = u2 → T1 = T2) l2) l1) as H.
  { intros l1 l2 Hb. rewrite forallb_forall in Hb.
    apply Forall_forall. intros [[T1 u1] f1] H1.
    apply list_elem_of_In, Hb in H1. rewrite forallb_forall in H1.
    apply Forall_forall. intros [[T2 u2] f2] H2 ->.
    apply list_elem_of_In, H1 in H2.
    rewrite String.eqb_refl in H2. simpl in H2.
    by apply String.eqb_eq. }
  apply H. vm_compute. reflexivity.
Qed.

Lemma owner_unique (T1 T2 u : string) (tbl1 tbl2 : gmap string float) :
  conversion_factor units !! T1 = Some tbl1 →
  conversion_factor units !! T2 = Some tbl2 →
  is_Some (tbl1 !! u) → is_Some (tbl2 !! u) → T1 = T2.
Proof.
  intros HT1 HT2 [f1 H1] [f2 H2].
  pose proof (registered_listed _ _ _ _ HT1 H1) as L1.
  pose proof (registered_listed _ _ _ _ HT2 H2) as L2.
  pose proof listed_owner_unique as HU.
  rewrite Forall_forall in HU. specialize (HU _ L1). simpl in HU.
  rewrite Forall_forall in HU. by apply (HU _ L2).
Qed.

(** Whatever the order in which the two loops visit the tables and their
    keys, the scan maps a name to a type exactly when the type's table
    holds the name. *)
Lemma build_unit_types_lookup items_of keys_of (u T : string) :
  items_of (conversion_factor units) ≡ₚ items (conversion_factor units) →
  (∀ tbl, keys_of tbl ≡ₚ keys tbl) →
  build_unit_types items_of keys_of (conversion_factor units) !! u = Some T ↔
  ∃ tbl, conversion_factor units !! T = Some tbl ∧ is_Some (tbl !! u).
Proof.
  intros Hitems Hkeys.
  assert (∀ u t, (u, t) ∈ assignments (items_of (conversion_factor units)) keys_of ↔
                 ∃ tbl, conversion_factor units !! t = Some tbl ∧
                        is_Some (tbl !! u)) as Hin.
  { intros u' t'. rewrite elem_of_assignments. split.
    - intros [tbl [Ht Hu]]. exists tbl.
      rewrite Hitems in Ht. apply elem_of_map_to_list in Ht.
      rewrite Hkeys, elem_of_keys in Hu. done.
    - intros [tbl [Ht Hu]]. exists tbl.
      rewrite Hitems, Hkeys, elem_of_keys. split; [|done].
      by apply elem_of_map_to_list. }
  rewrite build_unit_types_assignments, assignments_lookup.
  - rewrite Hin, lookup_empty. split; [intros [H|[_ H]]; done|by left].
  - intros u' t' t'' [tbl1 [Ht1 Hu1]]%Hin [tbl2 [Ht2 Hu2]]%Hin.
    by apply (owner_unique t' t'' u' tbl1 tbl2).
Qed.

Lemma unit_types_lookup (u T : string) :
  unit_types units !! u = Some T ↔
  ∃ tbl, conversion_factor units !! T = Some tbl ∧ is_Some (tbl !! u).
Proof. rewrite unit_types_built. by apply build_unit_types_lookup. Qed.

(** No stored scale factor is a zero. *)
Lemma factor_nonzero (T u : string) (tbl : gmap string float) (f : float) :
  conversion_factor units !! T = Some tbl → tbl !! u = Some f →
  (f =? 0) = false.
Proof.
  revert T u tbl f. apply registered_Forall.
  repeat (constructor; [reflexivity|]). constructor.
Qed.

End ReverseIndex.

(** ** The conversion functions on registered units *)

Section Conversion.

Lemma get_conversion_factor_registered (T u1 u2 : string)
    (tbl : gmap string float) (f1 f2 : float) :
  conversion_factor units !! T = Some tbl →
  tbl !! u1 = Some f1 → tbl !! u2 = Some f2 →
  get_conversion_factor T u1 u2 units = (Return (f2 / f1), units).
Proof.
  intros HT H1 H2. rewrite get_conversion_factor_run.
  unfold getitem, truediv. rewrite HT. simpl. rewrite H2. simpl.
  rewrite H1. simpl. by rewrite (factor_nonzero T u1 tbl f1).
Qed.

Lemma unit_types_registered (T u : string) (tbl : gmap string float) :
  conversion_factor units !! T = Some tbl → is_Some (tbl !! u) →
  unit_types units !! u = Some T.
Proof. intros HT Hu. apply unit_types_lookup. by exists tbl. Qed.

Lemma unit_types_unregistered (u : string) :
  ¬ registered u → unit_types units !! u = None.
Proof.
  intros Hn. destruct (unit_types units !! u) as [T|] eqn:E; [|done].
  destruct Hn. exists T. by apply unit_types_lookup.
Qed.

Lemma convert_registered (x : value) (T u1 u2 : string)
    (tbl : gmap string float) (f1 f2 : float) :
  conversion_factor units !! T = Some tbl →
  tbl !! u1 = Some f1 → tbl !! u2 = Some f2 →
  convert x u1 u2 units = (multiply x (f2 / f1), units).
Proof.
  intros HT H1 H2. rewrite convert_run.
  rewrite (unit_types_registered T u1 tbl), (unit_types_registered T u2 tbl)
    by done.
  rewrite bool_decide_eq_false_2 by (intros Hne; by apply Hne).
  by rewrite (get_conversion_factor_registered T u1 u2 tbl f1 f2).
Qed.

Lemma convert_unknown (x : value) (u1 u2 : string) :
  unit_types units !! u1 = None ∨ unit_types units !! u2 = None →
  convert x u1 u2 units =
  (Raise (ValueError (UnitsMustBeOneOf (keys (unit_types units)) u1 u2)),
   units).
Proof.
  intros H. rewrite convert_run.
  destruct H as [-> | ->]; [done|]. by destruct (unit_types units !! u1).
Qed.

Lemma convert_incompatible (x : value) (u1 u2 T1 T2 : string) :
  unit_types units !! u1 = Some T1 → unit_types units !! u2 = Some T2 →
  T1 ≠ T2 →
  convert x u1 u2 units = (Raise (ValueError (CannotConvert T1 T2)), units).
Proof.
  intros H1 H2 Hne. rewrite convert_run, H1, H2.
  by rewrite bool_decide_eq_true_2.
Qed.

(** The names [unit_types.keys()] lists: each registered name, once. *)
Lemma keys_unit_types_registered (u : string) :
  u ∈ keys (unit_types units) ↔ registered u.
Proof.
  unfold keys. rewrite list_elem_of_fmap. split.
  - intros [[u' T] [-> Hin]]. apply elem_of_map_to_list in Hin.
    exists T. by apply unit_types_lookup.
  - intros [T HT]. apply unit_types_lookup in HT.
    exists (u, T). split; [done|]. by apply elem_of_map_to_list.
Qed.

Lemma keys_unit_types_NoDup : NoDup (keys (unit_types units)).
Proof. apply NoDup_fst_map_to_list. Qed.

End Conversion.

(** ** Failed lookups, quotients of stored factors, scan orders *)

Section Lookups.

(** A missing unit name surfaces as the [KeyError] of the first failing
    subscription: that of [u2], else that of [u1]. *)
Lemma get_conversion_factor_missing (T u1 u2 : string)
    (tbl : gmap string float) (g : Globals) :
  conversion_factor g !! T = Some tbl →
  tbl !! u1 = None ∨ tbl !! u2 = None →
  get_conversion_factor T u1 u2 g =
  (Raise (KeyError (match tbl !! u2 with Some _ => u1 | None => u2 end)), g).
Proof.
  intros HT H. rewrite get_conversion_factor_run.
  unfold getitem. rewrite HT. simpl.
  destruct (tbl !! u2) as [f2|]; [|reflexivity]. simpl.
  destruct H as [H|H]; [|discriminate H]. by rewrite H.
Qed.

(** An unregistered quantity type surfaces as the [KeyError] of the outer
    subscription. *)
Lemma get_conversion_factor_no_table (T u1 u2 : string) (g : Globals) :
  conversion_factor g !! T = None →
  get_conversion_factor T u1 u2 g = (Raise (KeyError T), g).
Proof.
  intros HT. rewrite get_conversion_factor_run. unfold getitem.
  by rewrite HT.
Qed.

(** A check that passes on every pair of listed entries of one quantity
    type holds of every pair of units registered under one type. *)
Lemma registered_pairs_forallb (p : float → float → bool) :
  forallb (fun '(T1, _, f1) =>
    forallb (fun '(T2, _, f2) => implb (String.eqb T1 T2) (p f1 f2))
            contractual_registry) contractual_registry = true →
  ∀ T u1 u2 tbl f1 f2,
    conversion_factor units !! T = Some tbl →
    tbl !! u1 = Some f1 → tbl !! u2 = Some f2 → p f1 f2 = true.
Proof.
  intros Hb T u1 u2 tbl f1 f2 HT H1 H2.
  rewrite forallb_forall in Hb.
  pose proof (registered_listed T u1 tbl f1 HT H1) as L1.
  pose proof (registered_listed T u2 tbl f2 HT H2) as L2.
  apply list_elem_of_In, Hb in L1. rewrite forallb_forall in L1.
  apply list_elem_of_In, L1 in L2.
  by rewrite String.eqb_refl in L2.
Qed.

Lemma factor_self_quotient (T u : string) (tbl : gmap string float)
    (f : float) :
  conversion_factor units !! T = Some tbl → tbl !! u = Some f → f / f = 1.
Proof.
  revert T u tbl f. apply registered_Forall.
  repeat (constructor; [reflexivity|]). constructor.
Qed.

(** Whatever the order of the scan, it assigns every unit name once. *)
Lemma scan_assigns_once items_of keys_of :
  items_of (conversion_factor units) ≡ₚ items (conversion_factor units) →
  (∀ tbl, keys_of tbl ≡ₚ keys tbl) →
  NoDup ((assignments (items_of (conversion_factor units)) keys_of).*1).
Proof.
  intros Hitems Hkeys.
  assert (∀ t tbl, (t, tbl) ∈ items_of (conversion_factor units) →
                   conversion_factor units !! t = Some tbl) as Hlook.
  { intros t tbl Hin. rewrite Hitems in Hin.
    by apply elem_of_map_to_list in Hin. }
  apply NoDup_fmap_fst.
  - intros u t1 t2 [tbl1 [Ht1 Hu1]]%elem_of_assignments
                   [tbl2 [Ht2 Hu2]]%elem_of_assignments.
    rewrite Hkeys, elem_of_keys in Hu1, Hu2.
    apply (owner_unique t1 t2 u tbl1 tbl2); auto.
  - unfold assignments. apply NoDup_bind.
    + intros [t1 tbl1] [t2 tbl2] [u t] Hin1 Hin2 H1 H2.
      apply list_elem_of_fmap in H1 as [u1 [Heq1 _]].
      apply list_elem_of_fmap in H2 as [u2 [Heq2 _]].
      injection Heq1 as -> ->. injection Heq2 as _ <-.
      apply Hlook in Hin1, Hin2. rewrite Hin1 in Hin2. by injection Hin2 as <-.
    + intros [t tbl] _. apply NoDup_fmap_2_strong.
      * intros u1 u2 _ _ Heq. by injection Heq.
      * rewrite Hkeys. apply NoDup_fst_map_to_list.
    + rewrite Hitems. apply NoDup_map_to_list.
Qed.

Lemma build_unit_types_any_order items_of keys_of :
  items_of (conversion_factor units) ≡ₚ items (conversion_factor units) →
  (∀ tbl, keys_of tbl ≡ₚ keys tbl) →
  build_unit_types items_of keys_of (conversion_factor units) =
  unit_types units.
Proof.
  intros Hitems Hkeys. apply map_eq. intros u.
  apply option_eq. intros T.
  by rewrite unit_types_lookup, build_unit_types_lookup.
Qed.

End Lookups.

(** ** The specification's claims *)

(** C1: for every value [x] and unit names [u1], [u2] registered under the
    same quantity type [T], [get_conversion_factor T u1 u2] returns the stored
    factor of [u2] divided by the stored factor of [u1], [convert x u1 u2]
    returns [x] times that quotient, and both leave the module's globals as
    they were.  For a float [x] the product is the binary64 product; for a
    value of another kind [convert] returns (or raises) what the product
    [x * factor] does. *)
Theorem convert_pivots_through_base_unit (x : float) (T u1 u2 : string)
    (tbl : gmap string float) (f1 f2 : float) :
  conversion_factor units !! T = Some tbl →
  tbl !! u1 = Some f1 → tbl !! u2 = Some f2 →
  get_conversion_factor T u1 u2 units = (Return (f2 / f1), units) ∧
  convert (PyFloat x) u1 u2 units =
    (Return (PyFloat (x * (f2 / f1))), units) ∧
  ∀ v : value, convert v u1 u2 units = (multiply v (f2 / f1), units).
Proof.
  intros HT H1 H2. split; [|split].
  - by apply (get_conversion_factor_registered T u1 u2 tbl).
  - by rewrite (convert_registered (PyFloat x) T u1 u2 tbl f1 f2).
  - intros v. by apply (convert_registered v T u1 u2 tbl).
Qed.

Lemma convert_pivots_through_base_unit_witness :
  (conversion_factor units !! "time" = Some (timeUnit_factor units) ∧
   timeUnit_factor units !! "ns" = Some 1e-3 ∧
   timeUnit_factor units !! "second" = Some 1e-12) ∧
  get_conversion_factor "time" "ns" "second" units =
    (Return (1e-12 / 1e-3), units) ∧
  convert (PyFloat 2.5) "ns" "second" units =
    (Return (PyFloat (2.5 * (1e-12 / 1e-3))), units) ∧
  ∀ v : value,
    convert v "ns" "second" units = (multiply v (1e-12 / 1e-3), units).
Proof.
  split.
  - split; [|split]; vm_compute; reflexivity.
  - apply (convert_pivots_through_base_unit
             2.5 "time" "ns" "second" (timeUnit_factor units) 1e-3 1e-12);
      vm_compute; reflexivity.
Defined.

(** C2, as the specification states it, fails: ["nm"] and ["Angstrom"] are
    both registered under [length], and [convert] still raises for the
    integer 10^400: the product with the factor, which [convert] does not
    guard, raises [OverflowError]. *)
Lemma convert_overflows_on_large_int :
  ¬ no_error_when_compatible (PyInt (10 ^ 400)) "nm" "Angstrom".
Proof.
  intros H.
  assert (lengthUnit_factor units !! "nm" = Some 0.1) as Hnm
    by (vm_compute; reflexivity).
  assert (lengthUnit_factor units !! "Angstrom" = Some 1) as HA
    by (vm_compute; reflexivity).
  destruct (H "length") as [v Hv].
  - exists (lengthUnit_factor units).
    split; [apply conversion_factor_length|by rewrite Hnm].
  - exists (lengthUnit_factor units).
    split; [apply conversion_factor_length|by rewrite HA].
  - rewrite (convert_registered _ "length" "nm" "Angstrom"
               (lengthUnit_factor units) 0.1 1
               conversion_factor_length Hnm HA) in Hv.
    apply (f_equal fst) in Hv. cbn [fst] in Hv.
    vm_compute in Hv. discriminate Hv.
Qed.

(** C2, amended: for every value [x], [convert x u1 u2] fails with the
    unknown-unit error when [u1] or [u2] is not a registered unit name and
    with the incompatible-units error when the two names are registered under
    different quantity types; otherwise it returns or raises what the product
    of [x] with the conversion factor does: a float [x] gives a float and no
    error, an integer gives a float unless it is too large to convert to one
    ([OverflowError]), a [Decimal] gives a [TypeError].  In every case the
    outcome is a raised exception or a returned value, never both, and the
    globals are untouched.  In particular [convert x "Angstrom" "ps"] raises
    the incompatible-units error for every [x], and
    [convert 1.0 "Angstrom" "furlong"] the unknown-unit error. *)
Theorem convert_failure_modes (x : value) (u1 u2 : string) :
  ((¬ registered u1 ∨ ¬ registered u2) →
   ∃ e, convert x u1 u2 units = (Raise e, units) ∧
        kind_of e = Some UnknownUnitError ∧
        e = ValueError (UnitsMustBeOneOf (keys (unit_types units)) u1 u2)) ∧
  (∀ T1 T2, registered_under T1 u1 → registered_under T2 u2 → T1 ≠ T2 →
   ∃ e, convert x u1 u2 units = (Raise e, units) ∧
        kind_of e = Some IncompatibleUnitsError ∧
        e = ValueError (CannotConvert T1 T2)) ∧
  (∀ T, registered_under T u1 → registered_under T u2 →
   ∃ f, get_conversion_factor T u1 u2 units = (Return f, units) ∧
        convert x u1 u2 units = (multiply x f, units) ∧
        (∀ a, x = PyFloat a →
              convert x u1 u2 units = (Return (PyFloat (a * f)), units)) ∧
        (∀ n a, x = PyInt n → int_to_float n = Return a →
                convert x u1 u2 units = (Return (PyFloat (a * f)), units)) ∧
        (∀ n, x = PyInt n → int_to_float n = Raise OverflowError →
              convert x u1 u2 units = (Raise OverflowError, units)) ∧
        (∀ c e, x = PyDecimal c e →
                ∃ text, convert x u1 u2 units = (Raise (TypeError text), units))) ∧
  (∃ e, convert x "Angstrom" "ps" units = (Raise e, units) ∧
        kind_of e = Some IncompatibleUnitsError) ∧
  (∃ e, convert (PyFloat 1.0) "Angstrom" "furlong" units = (Raise e, units) ∧
        kind_of e = Some UnknownUnitError).
Proof.
  split; [|split; [|split; [|split]]].
  - intros H.
    exists (ValueError (UnitsMustBeOneOf (keys (unit_types units)) u1 u2)).
    split; [|split; reflexivity].
    apply convert_unknown.
    destruct H as [H|H]; [left|right]; by apply unit_types_unregistered.
  - intros T1 T2 H1 H2 Hne. exists (ValueError (CannotConvert T1 T2)).
    split; [|split; reflexivity].
    apply convert_incompatible; [by apply unit_types_lookup..|done].
  - intros T [tbl [HT [f1 H1]]] [tbl' [HT' [f2 H2]]].
    rewrite HT in HT'. injection HT' as <-.
    exists (f2 / f1).
    rewrite (convert_registered x T u1 u2 tbl f1 f2 HT H1 H2).
    split; [by apply (get_conversion_factor_registered T u1 u2 tbl)|].
    split; [reflexivity|].
    split; [by intros a ->|].
    split; [intros n a -> Hn; unfold multiply; by rewrite Hn|].
    split; [intros n -> Hn; unfold multiply; by rewrite Hn|].
    intros c e ->. by eexists.
  - exists (ValueError (CannotConvert "length" "time")). split; [|reflexivity].
    apply convert_incompatible; [by vm_compute..|done].
  - exists (ValueError
              (UnitsMustBeOneOf (keys (unit_types units)) "Angstrom" "furlong")).
    split; [|reflexivity]. apply convert_unknown. right. by vm_compute.
Qed.

Lemma convert_failure_modes_witness :
  (¬ registered "furlong" ∧
   registered_under "length" "nm" ∧ registered_under "time" "ns" ∧
   registered_under "length" "A" ∧
   int_to_float 3 = Return 3 ∧
   int_to_float (2 ^ 1024) = Raise OverflowError) ∧
  (∃ e, convert (PyFloat 3.0) "nm" "furlong" units = (Raise e, units) ∧
        kind_of e = Some UnknownUnitError) ∧
  (∃ e, convert (PyFloat 3.0) "nm" "ns" units = (Raise e, units) ∧
        kind_of e = Some IncompatibleUnitsError) ∧
  (∃ f, convert (PyFloat 3.0) "nm" "A" units =
          (Return (PyFloat (3.0 * f)), units)) ∧
  (∃ f, convert (PyInt 3) "nm" "A" units =
          (Return (PyFloat (3 * f)), units)) ∧
  convert (PyInt (2 ^ 1024)) "nm" "A" units = (Raise OverflowError, units).
Proof.
  assert (¬ registered "furlong") as Hfurlong.
  { intros [T HT]. apply unit_types_lookup in HT. vm_compute in HT.
    discriminate HT. }
  assert (registered_under "length" "nm") as Hnm.
  { exists (lengthUnit_factor units). split; [|eexists]; vm_compute; reflexivity. }
  assert (registered_under "time" "ns") as Hns.
  { exists (timeUnit_factor units). split; [|eexists]; vm_compute; reflexivity. }
  assert (registered_under "length" "A") as HA.
  { exists (lengthUnit_factor units). split; [|eexists]; vm_compute; reflexivity. }
  assert (int_to_float 3 = Return 3) as H3 by (vm_compute; reflexivity).
  assert (int_to_float (2 ^ 1024) = Raise OverflowError) as Hbig
    by (vm_compute; reflexivity).
  split; [exact (conj Hfurlong (conj Hnm (conj Hns (conj HA (conj H3 Hbig)))))|].
  split; [|split; [|split; [|split]]].
  - destruct (convert_failure_modes (PyFloat 3.0) "nm" "furlong") as (H & _).
    destruct (H (or_intror Hfurlong)) as (e & He & Hk & _).
    exists e. exact (conj He Hk).
  - destruct (convert_failure_modes (PyFloat 3.0) "nm" "ns") as (_ & H & _).
    assert ("length" ≠ "time") as Hne by discriminate.
    destruct (H "length" "time" Hnm Hns Hne) as (e & He & Hk & _).
    exists e. exact (conj He Hk).
  - destruct (convert_failure_modes (PyFloat 3.0) "nm" "A") as (_ & _ & H & _).
    destruct (H "length" Hnm HA) as (f & _ & _ & Hf & _).
    exists f. exact (Hf 3.0 eq_refl).
  - destruct (convert_failure_modes (PyInt 3) "nm" "A") as (_ & _ & H & _).
    destruct (H "length" Hnm HA) as (f & _ & _ & _ & Hi & _).
    exists f. exact (Hi 3%Z 3 eq_refl H3).
  - destruct (convert_failure_modes (PyInt (2 ^ 1024)) "nm" "A")
      as (_ & _ & H & _).
    destruct (H "length" Hnm HA) as (f & _ & _ & _ & _ & Ho & _).
    exact (Ho (2 ^ 1024)%Z eq_refl Hbig).
Defined.

(** C3: the stored tables are exactly the tables of section 4.1: a unit is
    stored under a quantity type with a scale factor if and only if the
    specification lists it there with that factor, bit for bit; no name is
    listed twice; and the stored factor of [Molar] is the real number
    1/(1e-27 * 6.02214179e+23) = 10^12/602214179 to a relative error below
    1e-15, hence to more than ten significant digits. *)
Theorem stored_factors_are_contractual :
  (∀ T u f,
     (∃ tbl, conversion_factor units !! T = Some tbl ∧ tbl !! u = Some f) ↔
     (T, u, f) ∈ contractual_registry) ∧
  lengthUnit_factor units = list_to_map contractual_length ∧
  densityUnit_factor units = list_to_map contractual_density ∧
  timeUnit_factor units = list_to_map contractual_time ∧
  NoDup (contractual_length.*1) ∧
  NoDup (contractual_density.*1) ∧
  NoDup (contractual_time.*1) ∧
  (∃ f, densityUnit_factor units !! "Molar" = Some f ∧
        f = 1 / (1e-27 * 6.02214179e+23) ∧
        float_within_rel_tol (1 # 10 ^ 15) f (10 ^ 12 # 602214179) = true).
Proof.
  split; [|split; [|split; [|split; [|split; [|split; [|split]]]]]].
  - intros T u f. split.
    + intros [tbl [HT Hu]]. by apply (registered_listed T u tbl f).
    + apply listed_registered.
  - apply length_table.
  - apply density_table.
  - apply time_table.
  - apply contractual_length_NoDup.
  - apply contractual_density_NoDup.
  - apply contractual_time_NoDup.
  - exists (1 / (1e-27 * 6.02214179e+23)).
    split; [|split]; vm_compute; reflexivity.
Qed.

(** C4, as the specification states it, fails: asked for the factor from
    ["furlong"] to ["nm"] in the length table, [get_conversion_factor] raises
    [KeyError "furlong"], which carries the missing name and no collection of
    known unit names. *)
Lemma lookup_failure_carries_no_known_units :
  ¬ lookup_failure_carries_known_units "length" "furlong" "nm".
Proof.
  intros H.
  assert (lengthUnit_factor units !! "furlong" = None) as Hf
    by (vm_compute; reflexivity).
  destruct (H (lengthUnit_factor units) conversion_factor_length
              (or_introl Hf)) as (e & name & known & He & _ & _ & _ & Hk & _).
  rewrite (get_conversion_factor_missing "length" "furlong" "nm"
             (lengthUnit_factor units) units conversion_factor_length
             (or_introl Hf)) in He.
  assert (lengthUnit_factor units !! "nm" = Some 0.1) as Hnm
    by (vm_compute; reflexivity).
  rewrite Hnm in He. apply (f_equal fst) in He. cbn [fst] in He.
  injection He as <-. discriminate Hk.
Qed.

(** C4, amended: for a registered quantity type [T], whenever [u1] or [u2] is
    missing from the table of [T], [get_conversion_factor T u1 u2] raises a
    [KeyError] and nothing else; the error carries one missing name ([u2] if
    it is missing, else [u1]) and no collection of known unit names; the
    globals are untouched. *)
Theorem lookup_failure_is_KeyError (T u1 u2 : string)
    (tbl : gmap string float) :
  conversion_factor units !! T = Some tbl →
  tbl !! u1 = None ∨ tbl !! u2 = None →
  ∃ name,
    get_conversion_factor T u1 u2 units = (Raise (KeyError name), units) ∧
    name = (match tbl !! u2 with Some _ => u1 | None => u2 end) ∧
    tbl !! name = None ∧
    kind_of (KeyError name) = Some UnknownUnitError ∧
    names_carried (KeyError name) = [name] ∧
    known_units_carried (KeyError name) = None.
Proof.
  intros HT H. eexists. split; [by apply get_conversion_factor_missing|].
  split; [reflexivity|]. split; [|by repeat split].
  destruct (tbl !! u2) eqn:E2; [|done]. by destruct H.
Qed.

Lemma lookup_failure_is_KeyError_witness :
  (conversion_factor units !! "time" = Some (timeUnit_factor units) ∧
   (timeUnit_factor units !! "ps" = None ∨
    timeUnit_factor units !! "fortnight" = None)) ∧
  ∃ name,
    get_conversion_factor "time" "ps" "fortnight" units =
      (Raise (KeyError name), units) ∧
    name = (match timeUnit_factor units !! "fortnight" with
            | Some _ => "ps" | None => "fortnight" end) ∧
    timeUnit_factor units !! name = None ∧
    kind_of (KeyError name) = Some UnknownUnitError ∧
    names_carried (KeyError name) = [name] ∧
    known_units_carried (KeyError name) = None.
Proof.
  assert (timeUnit_factor units !! "fortnight" = None) as Hf
    by (vm_compute; reflexivity).
  split.
  - split; [vm_compute; reflexivity|right; exact Hf].
  - apply (lookup_failure_is_KeyError "time" "ps" "fortnight"
             (timeUnit_factor units)).
    + vm_compute; reflexivity.
    + right; exact Hf.
Defined.

(** C5 (identity): for every quantity type [T] and unit name [u] registered
    under it, [get_conversion_factor T u u] returns exactly 1.0. *)
Theorem factor_identity (T u : string) (tbl : gmap string float) :
  conversion_factor units !! T = Some tbl → is_Some (tbl !! u) →
  get_conversion_factor T u u units = (Return 1.0, units).
Proof.
  intros HT [f Hf].
  rewrite (get_conversion_factor_registered T u u tbl f f HT Hf Hf).
  by rewrite (factor_self_quotient T u tbl f).
Qed.

Lemma factor_identity_witness :
  (conversion_factor units !! "density" = Some (densityUnit_factor units) ∧
   is_Some (densityUnit_factor units !! "TIP3P")) ∧
  get_conversion_factor "density" "TIP3P" "TIP3P" units = (Return 1.0, units).
Proof.
  assert (is_Some (densityUnit_factor units !! "TIP3P")) as HS
    by (eexists; vm_compute; reflexivity).
  split.
  - split; [vm_compute; reflexivity|exact HS].
  - apply (factor_identity "density" "TIP3P" (densityUnit_factor units));
      [vm_compute; reflexivity|exact HS].
Defined.

(** C6 (round trip): for every quantity type [T] and unit names [u1], [u2]
    registered under it, the factors from [u1] to [u2] and back are returned,
    and their floating-point product is 1.0 within a relative tolerance of
    1e-12 (measured on the exact value of the product). *)
Theorem factor_round_trip (T u1 u2 : string) (tbl : gmap string float) :
  conversion_factor units !! T = Some tbl →
  is_Some (tbl !! u1) → is_Some (tbl !! u2) →
  ∃ there back,
    get_conversion_factor T u1 u2 units = (Return there, units) ∧
    get_conversion_factor T u2 u1 units = (Return back, units) ∧
    float_within_rel_tol (1 # 10 ^ 12) (there * back) 1 = true.
Proof.
  intros HT [f1 H1] [f2 H2]. exists (f2 / f1), (f1 / f2).
  split; [by apply (get_conversion_factor_registered T u1 u2 tbl)|].
  split; [by apply (get_conversion_factor_registered T u2 u1 tbl)|].
  revert T u1 u2 tbl f1 f2 HT H1 H2.
  apply (registered_pairs_forallb
           (fun f1 f2 =>
              float_within_rel_tol (1 # 10 ^ 12) (f2 / f1 * (f1 / f2)) 1)).
  vm_compute. reflexivity.
Qed.

Lemma factor_round_trip_witness :
  (conversion_factor units !! "time" = Some (timeUnit_factor units) ∧
   is_Some (timeUnit_factor units !! "AKMA") ∧
   is_Some (timeUnit_factor units !! "second")) ∧
  ∃ there back,
    get_conversion_factor "time" "AKMA" "second" units = (Return there, units) ∧
    get_conversion_factor "time" "second" "AKMA" units = (Return back, units) ∧
    float_within_rel_tol (1 # 10 ^ 12) (there * back) 1 = true.
Proof.
  assert (is_Some (timeUnit_factor units !! "AKMA")) as H1
    by (eexists; vm_compute; reflexivity).
  assert (is_Some (timeUnit_factor units !! "second")) as H2
    by (eexists; vm_compute; reflexivity).
  split.
  - split; [vm_compute; reflexivity|exact (conj H1 H2)].
  - apply (factor_round_trip "time" "AKMA" "second" (timeUnit_factor units));
      [vm_compute; reflexivity|exact H1|exact H2].
Defined.

(** C7: the concrete scenarios of section 8. *)
Theorem concrete_scenarios :
  convert (PyFloat 10.0) "Angstrom" "nm" units = (Return (PyFloat 1.0), units) ∧
  convert (PyFloat 1.0) "nm" "Angstrom" units = (Return (PyFloat 10.0), units) ∧
  convert (PyFloat 1.0) "ns" "ps" units = (Return (PyFloat 1000.0), units) ∧
  convert (PyFloat 1.0) "ps" "second" units = (Return (PyFloat 1e-12), units) ∧
  get_conversion_factor "density" "Angstrom^{-3}" "nm^{-3}" units =
    (Return 1000.0, units).
Proof.
  split; [|split; [|split; [|split]]].
  - rewrite (convert_registered (PyFloat 10.0) "length" "Angstrom" "nm"
               (lengthUnit_factor units) 1.0 0.1);
      [reflexivity|apply conversion_factor_length|vm_compute; reflexivity..].
  - rewrite (convert_registered (PyFloat 1.0) "length" "nm" "Angstrom"
               (lengthUnit_factor units) 0.1 1.0);
      [reflexivity|apply conversion_factor_length|vm_compute; reflexivity..].
  - rewrite (convert_registered (PyFloat 1.0) "time" "ns" "ps"
               (timeUnit_factor units) 1e-3 1.0);
      [reflexivity|apply conversion_factor_time|vm_compute; reflexivity..].
  - rewrite (convert_registered (PyFloat 1.0) "time" "ps" "second"
               (timeUnit_factor units) 1.0 1e-12);
      [reflexivity|apply conversion_factor_time|vm_compute; reflexivity..].
  - rewrite (get_conversion_factor_registered "density" "Angstrom^{-3}"
               "nm^{-3}" (densityUnit_factor units) 1.0 1000.0);
      [reflexivity|apply conversion_factor_density|vm_compute; reflexivity..].
Qed.

(** C8: the registry the module builds has the three tables length, density
    and time; every unit name is held by
    exactly one quantity type's table; [unit_types] maps a name to a type
    exactly when that type's table holds the name; whatever the order in which
    the scan visits the tables and their keys, it assigns every name once (no
    table overwrites the entry of another) and builds the same [unit_types];
    and neither function of the module changes the globals it is run
    against. *)
Theorem registry_unique_owner :
  keys (conversion_factor units) ≡ₚ ["length"; "density"; "time"] ∧
  (∀ u T1 T2, registered_under T1 u → registered_under T2 u → T1 = T2) ∧
  (∀ u T, unit_types units !! u = Some T ↔ registered_under T u) ∧
  (∀ items_of keys_of,
     items_of (conversion_factor units) ≡ₚ items (conversion_factor units) →
     (∀ tbl, keys_of tbl ≡ₚ keys tbl) →
     NoDup ((assignments (items_of (conversion_factor units)) keys_of).*1) ∧
     build_unit_types items_of keys_of (conversion_factor units) =
     unit_types units) ∧
  (∀ g unit_type u1 u2,
     (get_conversion_factor unit_type u1 u2 g).2 = g) ∧
  (∀ g x u1 u2, (convert x u1 u2 g).2 = g).
Proof.
  split; [apply conversion_factor_keys|].
  split; [|split; [|split; [|split]]].
  - intros u T1 T2 [tbl1 [HT1 H1]] [tbl2 [HT2 H2]].
    by apply (owner_unique T1 T2 u tbl1 tbl2).
  - intros u T. apply unit_types_lookup.
  - intros items_of keys_of Hitems Hkeys. split.
    + by apply scan_assigns_once.
    + by apply build_unit_types_any_order.
  - intros g unit_type u1 u2. by rewrite get_conversion_factor_run.
  - intros g x u1 u2. by rewrite convert_run.
Qed.

Lemma registry_unique_owner_witness :
  (registered_under "density" "water" ∧
   items (conversion_factor units) ≡ₚ items (conversion_factor units) ∧
   ∀ tbl : gmap string float, reverse (keys tbl) ≡ₚ keys tbl) ∧
  unit_types units !! "water" = Some "density" ∧
  NoDup ((assignments (items (conversion_factor units)) (reverse ∘ keys)).*1) ∧
  build_unit_types items (reverse ∘ keys) (conversion_factor units) =
  unit_types units.
Proof.
  assert (registered_under "density" "water") as Hw.
  { exists (densityUnit_factor units).
    split; [|eexists]; vm_compute; reflexivity. }
  assert (∀ tbl : gmap string float, reverse (keys tbl) ≡ₚ keys tbl) as Hrev
    by (intros tbl; apply reverse_Permutation).
  split; [exact (conj Hw (conj (reflexivity _) Hrev))|].
  destruct registry_unique_owner as (_ & _ & Hindex & Hscan & _).
  split; [exact (proj2 (Hindex "water" "density") Hw)|].
  exact (Hscan items (reverse ∘ keys) (reflexivity _) Hrev).
Defined.

(** C9: for every reader and every frame index, [_read_frame] raises a
    [TypeError] saying that the reader's class does not support direct frame
    indexing; it returns no timestep and leaves the reader as it was. *)
Theorem read_frame_raises (Timestep H5File : Type)
    (self : H5MDReader Timestep H5File) (frame : Z) :
  _read_frame self frame =
    (Raise (TypeError (class_name self +:+
                       " does not support direct frame indexing.")), self) ∧
  (∀ ts, (_read_frame self frame).1 ≠ Return ts) ∧
  (_read_frame self frame).2 = self ∧
  (class_name self = "H5MDReader" →
   (_read_frame self frame).1 =
   Raise (TypeError "H5MDReader does not support direct frame indexing.")).
Proof.
  split; [reflexivity|]. split; [discriminate|]. split; [reflexivity|].
  intros Hc. unfold _read_frame. simpl. by rewrite Hc.
Qed.

Lemma read_frame_raises_witness :
  let self :=
    {| class_name := "H5MDReader"; filename := "traj.h5md";
       _n_atoms := Some 3%Z; _n_frames := None; trjfile := None;
       ts := tt; h5mdfile := tt |} in
  class_name self = "H5MDReader" ∧
  (_read_frame self 7).1 =
  Raise (TypeError "H5MDReader does not support direct frame indexing.").
Proof.
  intros self. split; [reflexivity|].
  destruct (read_frame_raises unit unit self 7%Z) as (_ & _ & _ & H).
  exact (H eq_refl).
Defined.

(** C10, as the specification states it, fails: ["ps"] and ["ns"] are both
    registered under [time], and for the [Decimal] 1.5 [convert] raises a
    [TypeError], which is neither of its two own errors: the product with
    the factor is a third operation that [convert] does not guard. *)
Lemma convert_raises_TypeError_on_Decimal :
  ¬ only_checked_failures (PyDecimal 15 (-1)) "ps" "ns".
Proof.
  intros H.
  assert (timeUnit_factor units !! "ps" = Some 1) as Hps
    by (vm_compute; reflexivity).
  assert (timeUnit_factor units !! "ns" = Some 1e-3) as Hns
    by (vm_compute; reflexivity).
  pose proof (convert_registered (PyDecimal 15 (-1)) "time" "ps" "ns"
                (timeUnit_factor units) 1 1e-3
                conversion_factor_time Hps Hns) as Hrun.
  cbn [multiply] in Hrun.
  destruct (H _ _ Hrun) as [[known He]|[T1 [T2 He]]]; discriminate He.
Qed.

(** C10, amended: inside [convert], the table lookups and the division
    cannot fail: when both lookups in [unit_types] succeed with the same
    quantity type [T], the table of [T] holds [u1] and [u2] and the divisor
    is not zero, so [get_conversion_factor] returns.  Whenever [convert]
    raises, it raises one of its two own errors (unknown unit name, or two
    different quantity types) or the error of the final product of [x] with
    the factor ([OverflowError] for an integer too large to convert to a
    float, [TypeError] for a [Decimal]); for a float [x] the two own errors
    are the only failures. *)
Theorem convert_unchecked_failures_unreachable :
  (∀ u1 u2 T,
     unit_types units !! u1 = Some T → unit_types units !! u2 = Some T →
     ∃ tbl f1 f2,
       conversion_factor units !! T = Some tbl ∧
       tbl !! u1 = Some f1 ∧ tbl !! u2 = Some f2 ∧
       (f1 =? 0) = false ∧
       get_conversion_factor T u1 u2 units = (Return (f2 / f1), units)) ∧
  (∀ x u1 u2 e g,
     convert x u1 u2 units = (Raise e, g) →
     ((unit_types units !! u1 = None ∨ unit_types units !! u2 = None) ∧
      e = ValueError (UnitsMustBeOneOf (keys (unit_types units)) u1 u2)) ∨
     (∃ T1 T2, unit_types units !! u1 = Some T1 ∧
               unit_types units !! u2 = Some T2 ∧ T1 ≠ T2 ∧
               e = ValueError (CannotConvert T1 T2)) ∨
     (∃ T f, unit_types units !! u1 = Some T ∧
             unit_types units !! u2 = Some T ∧
             get_conversion_factor T u1 u2 units = (Return f, units) ∧
             multiply x f = Raise e ∧
             ((∃ n, x = PyInt n ∧ e = OverflowError) ∨
              (∃ c ex text, x = PyDecimal c ex ∧ e = TypeError text)))) ∧
  (∀ a u1 u2 e g,
     convert (PyFloat a) u1 u2 units = (Raise e, g) →
     ((unit_types units !! u1 = None ∨ unit_types units !! u2 = None) ∧
      e = ValueError (UnitsMustBeOneOf (keys (unit_types units)) u1 u2)) ∨
     (∃ T1 T2, unit_types units !! u1 = Some T1 ∧
               unit_types units !! u2 = Some T2 ∧ T1 ≠ T2 ∧
               e = ValueError (CannotConvert T1 T2))).
Proof.
  assert (∀ u1 u2 T,
     unit_types units !! u1 = Some T → unit_types units !! u2 = Some T →
     ∃ tbl f1 f2,
       conversion_factor units !! T = Some tbl ∧
       tbl !! u1 = Some f1 ∧ tbl !! u2 = Some f2 ∧
       (f1 =? 0) = false ∧
       get_conversion_factor T u1 u2 units = (Return (f2 / f1), units)) as Hok.
  { intros u1 u2 T [tbl [HT [f1 H1]]]%unit_types_lookup
                   [tbl' [HT' [f2 H2]]]%unit_types_lookup.
    rewrite HT in HT'. injection HT' as <-.
    exists tbl, f1, f2. repeat split; try assumption.
    - by apply (factor_nonzero T u1 tbl).
    - by apply (get_conversion_factor_registered T u1 u2 tbl). }
  assert (∀ x u1 u2 e g,
     convert x u1 u2 units = (Raise e, g) →
     ((unit_types units !! u1 = None ∨ unit_types units !! u2 = None) ∧
      e = ValueError (UnitsMustBeOneOf (keys (unit_types units)) u1 u2)) ∨
     (∃ T1 T2, unit_types units !! u1 = Some T1 ∧
               unit_types units !! u2 = Some T2 ∧ T1 ≠ T2 ∧
               e = ValueError (CannotConvert T1 T2)) ∨
     (∃ T f, unit_types units !! u1 = Some T ∧
             unit_types units !! u2 = Some T ∧
             get_conversion_factor T u1 u2 units = (Return f, units) ∧
             multiply x f = Raise e ∧
             ((∃ n, x = PyInt n ∧ e = OverflowError) ∨
              (∃ c ex text, x = PyDecimal c ex ∧ e = TypeError text)))) as Hall.
  { intros x u1 u2 e g. rewrite convert_run. intros He.
    apply (f_equal fst) in He. cbn [fst] in He.
    destruct (unit_types units !! u1) as [T1|] eqn:E1;
      [|left; split; [by left|congruence]].
    destruct (unit_types units !! u2) as [T2|] eqn:E2;
      [|left; split; [by right|congruence]].
    case_bool_decide as Hne.
    - right; left. exists T1, T2. repeat split; [assumption|congruence].
    - assert (T1 = T2) as <-
        by (destruct (decide (T1 = T2)); [done|by destruct Hne]).
      destruct (Hok u1 u2 T1 E1 E2) as (tbl & f1 & f2 & _ & _ & _ & _ & Hrun).
      rewrite Hrun in He. cbn [fst mbind result_bind] in He.
      right; right. exists T1, (f2 / f1).
      split; [reflexivity|]. split; [reflexivity|]. split; [exact Hrun|].
      split; [exact He|].
      destruct x as [a|n|c ex]; cbn [multiply] in He.
      + discriminate He.
      + left. exists n. split; [reflexivity|].
        unfold int_to_float in He.
        destruct (binary_normalize prec emax n 0 false);
          cbn [mbind result_bind] in He; congruence.
      + right. exists c, ex. injection He as <-. eexists. split; reflexivity. }
  split; [exact Hok|]. split; [exact Hall|].
  intros a u1 u2 e g He.
  destruct (Hall _ _ _ _ _ He) as [H|[H|(T & f & _ & _ & _ & _ & H)]];
    [by left|by right|].
  destruct H as [(n & Hx & _)|(c & ex & text & Hx & _)]; discriminate Hx.
Qed.

Lemma convert_unchecked_failures_unreachable_witness :
  (unit_types units !! "TIP4P" = Some "density" ∧
   unit_types units !! "Molar" = Some "density") ∧
  ∃ tbl f1 f2,
    conversion_factor units !! "density" = Some tbl ∧
    tbl !! "TIP4P" = Some f1 ∧ tbl !! "Molar" = Some f2 ∧
    (f1 =? 0) = false ∧
    get_conversion_factor "density" "TIP4P" "Molar" units =
      (Return (f2 / f1), units).
Proof.
  assert (unit_types units !! "TIP4P" = Some "density") as H1
    by (vm_compute; reflexivity).
  assert (unit_types units !! "Molar" = Some "density") as H2
    by (vm_compute; reflexivity).
  split; [exact (conj H1 H2)|].
  destruct convert_unchecked_failures_unreachable as (H & _).
  exact (H "TIP4P" "Molar" "density" H1 H2).
Defined.

(** ** Floating-point facts *)

Section FloatFacts.

Lemma digits2_shift52 (m : positive) :
  Z.pos (digits2_pos (Pos.iter xO m 52)) = (Z.pos (digits2_pos m) + 52)%Z.
Proof. cbn [Pos.iter digits2_pos]. rewrite !Pos2Z.inj_succ. lia. Qed.

Lemma shr_shift52 (m : positive) (e : Z) :
  shr {| shr_m := Z.pos (Pos.iter xO m 52); shr_r := false; shr_s := false |}
      e 52
  = ({| shr_m := Z.pos m; shr_r := false; shr_s := false |}, (e + 52)%Z).
Proof. reflexivity. Qed.

(** Rounding the product of a binary64 mantissa with 2^52 at an exponent
    lowered by 52 gives the mantissa and the exponent back. *)
Lemma round_shift52 (s : bool) (m : positive) (e : Z) :
  bounded prec emax m e = true →
  binary_round_aux prec emax s (Z.pos (m * 4503599627370496)) (e + -52)
    loc_Exact
  = S754_finite s m e.
Proof.
  unfold bounded, canonical_mantissa.
  rewrite andb_true_iff, Z.eqb_eq, Z.leb_le. intros [Hc Hb].
  replace (m * 4503599627370496)%positive with (Pos.iter xO m 52)
    by (rewrite Pos.mul_comm; reflexivity).
  unfold binary_round_aux, shr_fexp.
  cbn [Zdigits2 shr_record_of_loc]. rewrite digits2_shift52.
  replace (SpecFloat.fexp prec emax (Z.pos (digits2_pos m) + 52 + (e + -52))
           - (e + -52))%Z
    with 52%Z
    by (replace (Z.pos (digits2_pos m) + 52 + (e + -52))%Z
          with (Z.pos (digits2_pos m) + e)%Z by lia; rewrite Hc; lia).
  rewrite shr_shift52.
  cbn [shr_m loc_of_shr_record round_nearest_even Zdigits2 shr_record_of_loc].
  replace (e + -52 + 52)%Z with e by lia.
  rewrite Hc, Z.sub_diag. cbn [shr shr_m].
  apply Z.leb_le in Hb. rewrite Hb. reflexivity.
Qed.

(** Multiplying by 1.0 changes no float: not a number, a zero of either
    sign, an infinity, a subnormal. *)
Lemma float_mul_1_r (x : float) : x * 1 = x.
Proof.
  apply Prim2SF_inj. rewrite mul_spec.
  pose proof (Prim2SF_valid x) as Hv.
  change (Prim2SF 1) with (S754_finite false 4503599627370496 (-52)).
  destruct (Prim2SF x) as [s|s| |s m e]; try (destruct s; reflexivity).
  - reflexivity.
  - unfold SF64mul, SFmul. rewrite xorb_false_r.
    apply round_shift52. exact Hv.
Qed.

Lemma shr_1_nonneg (mrs : shr_record) :
  (0 <= shr_m mrs)%Z → (0 <= shr_m (shr_1 mrs))%Z.
Proof.
  destruct mrs as [[|[p|p|]|[p|p|]] r s]; simpl; lia.
Qed.

Lemma iter_shr_1_nonneg (n : positive) (mrs : shr_record) :
  (0 <= shr_m mrs)%Z → (0 <= shr_m (SpecFloat.iter_pos shr_1 n mrs))%Z.
Proof.
  revert mrs. induction n as [n IH|n IH|]; intros mrs H; simpl.
  - apply IH, IH, shr_1_nonneg, H.
  - apply IH, IH, H.
  - apply shr_1_nonneg, H.
Qed.

Lemma shr_fexp_nonneg (m e : Z) (l : location) :
  (0 <= m)%Z → (0 <= shr_m (shr_fexp prec emax m e l).1)%Z.
Proof.
  intros H. unfold shr_fexp, shr.
  assert (0 <= shr_m (shr_record_of_loc m l))%Z as H0
    by (destruct l as [|[]]; exact H).
  destruct (_ - e)%Z; simpl; [exact H0| |exact H0].
  by apply iter_shr_1_nonneg.
Qed.

Lemma round_nearest_even_nonneg (m : Z) (l : location) :
  (0 <= m)%Z → (0 <= round_nearest_even m l)%Z.
Proof.
  intros H. destruct l as [|[]]; simpl; try lia. destruct (Z.even m); lia.
Qed.

(** The rounding of a positive integer mantissa is a zero, a finite number or
    an infinity of the given sign. *)
Lemma binary_round_aux_sign (s : bool) (m : positive) (e : Z) :
  match binary_round_aux prec emax s (Z.pos m) e loc_Exact with
  | S754_zero s' | S754_infinity s' | S754_finite s' _ _ => s' = s
  | S754_nan => False
  end.
Proof.
  unfold binary_round_aux.
  pose proof (shr_fexp_nonneg (Z.pos m) e loc_Exact ltac:(lia)) as H1.
  destruct (shr_fexp prec emax (Z.pos m) e loc_Exact) as [mrs' e'].
  simpl in H1.
  pose proof (shr_fexp_nonneg
                (round_nearest_even (shr_m mrs') (loc_of_shr_record mrs'))
                e' loc_Exact
                (round_nearest_even_nonneg _ _ H1)) as H2.
  destruct (shr_fexp prec emax _ e' loc_Exact) as [mrs'' e''].
  simpl in H2.
  destruct (shr_m mrs'') as [|p|p]; [reflexivity| |lia].
  by destruct (e'' <=? emax - prec)%Z.
Qed.

(** Multiplying by a positive finite float keeps the sign of every number
    and makes no number a NaN. *)
Lemma float_mul_pos_sign (x q : float) (mq : positive) (eq : Z) :
  Prim2SF q = S754_finite false mq eq →
  sign_of (x * q) = sign_of x.
Proof.
  intros Hq. unfold sign_of. rewrite mul_spec, Hq.
  destruct (Prim2SF x) as [s|s| |s m e]; unfold SF64mul, SFmul;
    rewrite ?xorb_false_r; try reflexivity.
  pose proof (binary_round_aux_sign s (m * mq) (e + eq)) as H.
  destruct (binary_round_aux _ _ _ _ _ _); by subst.
Qed.

End FloatFacts.

(** ** Further facts about the registry and the scan *)

Section MoreRegistry.

Lemma elem_of_keys_any {V : Type} (d : gmap string V) (k : string) :
  k ∈ keys d ↔ is_Some (d !! k).
Proof.
  unfold keys. rewrite list_elem_of_fmap. split.
  - intros [[k' v] [-> Hin]]. apply elem_of_map_to_list in Hin. by exists v.
  - intros [v Hv]. exists (k, v). split; [done|]. by apply elem_of_map_to_list.
Qed.

Lemma conversion_factor_other_type (T : string) :
  T ≠ "length" → T ≠ "density" → T ≠ "time" →
  conversion_factor units !! T = None.
Proof.
  intros Hl Hd Ht. apply eq_None_not_Some. intros HS.
  apply elem_of_keys_any in HS. rewrite conversion_factor_keys in HS.
  rewrite !elem_of_cons, elem_of_nil in HS. by destruct HS as [|[|[|[]]]].
Qed.

(** A check that passes on every triple of listed entries of one quantity
    type holds of every triple of units registered under one type. *)
Lemma registered_triples_forallb (p : float → float → float → bool) :
  forallb (fun '(T1, _, f1) =>
    forallb (fun '(T2, _, f2) =>
      forallb (fun '(T3, _, f3) =>
        implb (String.eqb T1 T2 && String.eqb T2 T3) (p f1 f2 f3))
        contractual_registry) contractual_registry) contractual_registry
  = true →
  ∀ T u1 u2 u3 tbl f1 f2 f3,
    conversion_factor units !! T = Some tbl →
    tbl !! u1 = Some f1 → tbl !! u2 = Some f2 → tbl !! u3 = Some f3 →
    p f1 f2 f3 = true.
Proof.
  intros Hb T u1 u2 u3 tbl f1 f2 f3 HT H1 H2 H3.
  rewrite forallb_forall in Hb.
  pose proof (registered_listed T u1 tbl f1 HT H1) as L1.
  pose proof (registered_listed T u2 tbl f2 HT H2) as L2.
  pose proof (registered_listed T u3 tbl f3 HT H3) as L3.
  apply list_elem_of_In, Hb in L1. rewrite forallb_forall in L1.
  apply list_elem_of_In, L1 in L2. rewrite forallb_forall in L2.
  apply list_elem_of_In, L2 in L3.
  by rewrite String.eqb_refl in L3.
Qed.

Lemma factor_over_one (T u : string) (tbl : gmap string float) (f : float) :
  conversion_factor units !! T = Some tbl → tbl !! u = Some f → f / 1 = f.
Proof.
  revert T u tbl f. apply registered_Forall.
  repeat (constructor; [reflexivity|]). constructor.
Qed.

(** Every conversion factor between two units of one type is a positive
    finite float. *)
Lemma factor_positive_finite (T u1 u2 : string) (tbl : gmap string float)
    (f1 f2 : float) :
  conversion_factor units !! T = Some tbl →
  tbl !! u1 = Some f1 → tbl !! u2 = Some f2 →
  ∃ m e, Prim2SF (f2 / f1) = S754_finite false m e.
Proof.
  intros HT H1 H2.
  pose proof (registered_pairs_forallb
    (fun f1 f2 => match Prim2SF (f2 / f1) with
                  | S754_finite false _ _ => true
                  | _ => false
                  end) ltac:(vm_compute; reflexivity)
    T u1 u2 tbl f1 f2 HT H1 H2) as H.
  simpl in H. destruct (Prim2SF (f2 / f1)) as [| | |[] m e]; try discriminate H.
  by exists m, e.
Qed.

(** Assignments to other names leave a name's entry alone. *)
Lemma assignments_other (l : list (string * string)) (acc : gmap string string)
    (u : string) :
  u ∉ l.*1 →
  foldl (fun m '(unit, utype) => <[unit := utype]> m) acc l !! u = acc !! u.
Proof.
  revert acc. induction l as [|[u0 t0] l IH]; intros acc Hn; [done|].
  rewrite fmap_cons, not_elem_of_cons in Hn. destruct Hn as [Hne Hn].
  simpl. rewrite IH by done. by apply lookup_insert_ne.
Qed.

(** After a run of assignments a name holds a type the run assigned to it,
    or what it held before. *)
Lemma assignments_sound (l : list (string * string)) (acc : gmap string string)
    (u t : string) :
  foldl (fun m '(unit, utype) => <[unit := utype]> m) acc l !! u = Some t →
  (u, t) ∈ l ∨ acc !! u = Some t.
Proof.
  revert acc. induction l as [|[u0 t0] l IH]; intros acc H; [by right|].
  simpl in H. apply IH in H as [H|H]; [left; by right|].
  destruct (decide (u0 = u)) as [->|Hne].
  - rewrite lookup_insert_eq in H. injection H as ->. left. by left.
  - rewrite lookup_insert_ne in H by done. by right.
Qed.

Lemma assignments_complete (l : list (string * string))
    (acc : gmap string string) (u : string) :
  u ∈ l.*1 →
  is_Some (foldl (fun m '(unit, utype) => <[unit := utype]> m) acc l !! u).
Proof.
  revert acc. induction l as [|[u0 t0] l IH]; intros acc Hin.
  - by apply elem_of_nil in Hin.
  - simpl. destruct (decide (u ∈ l.*1)) as [Hl|Hl]; [by apply IH|].
    rewrite fmap_cons, elem_of_cons in Hin. destruct Hin as [->|Hin]; [|done].
    rewrite assignments_other by done. simpl. rewrite lookup_insert_eq. by eexists.
Qed.

End MoreRegistry.

(** ** Further properties of the code *)

(** X1: converting a float between two units of one quantity type that
    store the same scale factor (a unit and itself, or two spellings of one
    unit such as [nm] and [nanometer]) returns the float unchanged: a number,
    a zero of either sign or an infinity comes back as it is, bit for bit,
    and a NaN comes back as a NaN (the model has one NaN: what becomes of the
    payload and the signalling bit of a NaN is not stated). *)
Theorem convert_same_factor_is_identity (x : float) (T u1 u2 : string)
    (tbl : gmap string float) (f : float) :
  conversion_factor units !! T = Some tbl →
  tbl !! u1 = Some f → tbl !! u2 = Some f →
  convert (PyFloat x) u1 u2 units = (Return (PyFloat x), units).
Proof.
  intros HT H1 H2.
  rewrite (convert_registered (PyFloat x) T u1 u2 tbl f f HT H1 H2).
  cbn [multiply].
  by rewrite (factor_self_quotient T u1 tbl f), float_mul_1_r.
Qed.

Lemma convert_same_factor_is_identity_witness :
  (conversion_factor units !! "length" = Some (lengthUnit_factor units) ∧
   lengthUnit_factor units !! "nm" = Some 0.1 ∧
   lengthUnit_factor units !! "nanometer" = Some 0.1) ∧
  convert (PyFloat neg_infinity) "nm" "nanometer" units =
    (Return (PyFloat neg_infinity), units).
Proof.
  split.
  - split; [|split]; vm_compute; reflexivity.
  - apply (convert_same_factor_is_identity neg_infinity "length" "nm"
             "nanometer" (lengthUnit_factor units) 0.1);
      vm_compute; reflexivity.
Defined.

(** X2: from a unit whose stored scale factor is 1.0 (the base unit of its
    quantity type or another spelling of it), the conversion factor to a unit
    of the same type is exactly the stored factor of that unit, and [convert]
    multiplies by it: the tables store f(b->b'), as the module's docstring
    says. *)
Theorem factor_from_base_unit (x : float) (T b u : string)
    (tbl : gmap string float) (f : float) :
  conversion_factor units !! T = Some tbl →
  tbl !! b = Some 1 → tbl !! u = Some f →
  get_conversion_factor T b u units = (Return f, units) ∧
  convert (PyFloat x) b u units = (Return (PyFloat (x * f)), units).
Proof.
  intros HT Hb Hu.
  rewrite (get_conversion_factor_registered T b u tbl 1 f HT Hb Hu).
  rewrite (convert_registered (PyFloat x) T b u tbl 1 f HT Hb Hu).
  cbn [multiply]. by rewrite (factor_over_one T u tbl f).
Qed.

Lemma factor_from_base_unit_witness :
  (conversion_factor units !! "time" = Some (timeUnit_factor units) ∧
   timeUnit_factor units !! "ps" = Some 1 ∧
   timeUnit_factor units !! "AKMA" = Some (1 / 4.888821e-2)) ∧
  get_conversion_factor "time" "ps" "AKMA" units =
    (Return (1 / 4.888821e-2), units) ∧
  convert (PyFloat 3.0) "ps" "AKMA" units =
    (Return (PyFloat (3.0 * (1 / 4.888821e-2))), units).
Proof.
  split.
  - split; [|split]; vm_compute; reflexivity.
  - apply (factor_from_base_unit 3.0 "time" "ps" "AKMA"
             (timeUnit_factor units) (1 / 4.888821e-2));
      vm_compute; reflexivity.
Defined.

(** X3 (composition): for units [u1], [u2], [u3] registered under one
    quantity type, the floating-point product of the factors from [u1] to
    [u2] and from [u2] to [u3] agrees with the factor from [u1] to [u3] to a
    relative error of at most 1e-15. *)
Theorem factor_composes (T u1 u2 u3 : string) (tbl : gmap string float) :
  conversion_factor units !! T = Some tbl →
  is_Some (tbl !! u1) → is_Some (tbl !! u2) → is_Some (tbl !! u3) →
  ∃ f12 f23 f13 q13,
    get_conversion_factor T u1 u2 units = (Return f12, units) ∧
    get_conversion_factor T u2 u3 units = (Return f23, units) ∧
    get_conversion_factor T u1 u3 units = (Return f13, units) ∧
    float_to_Q f13 = Some q13 ∧
    float_within_rel_tol (1 # 10 ^ 15) (f12 * f23) q13 = true.
Proof.
  intros HT [f1 H1] [f2 H2] [f3 H3].
  pose proof (registered_triples_forallb
    (fun f1 f2 f3 =>
       match float_to_Q (f3 / f1) with
       | Some q => float_within_rel_tol (1 # 10 ^ 15) (f2 / f1 * (f3 / f2)) q
       | None => false
       end) ltac:(vm_compute; reflexivity)
    T u1 u2 u3 tbl f1 f2 f3 HT H1 H2 H3) as H.
  simpl in H. destruct (float_to_Q (f3 / f1)) as [q13|] eqn:E; [|discriminate H].
  exists (f2 / f1), (f3 / f2), (f3 / f1), q13.
  split; [by apply (get_conversion_factor_registered T u1 u2 tbl)|].
  split; [by apply (get_conversion_factor_registered T u2 u3 tbl)|].
  split; [by apply (get_conversion_factor_registered T u1 u3 tbl)|].
  split; [exact E|exact H].
Qed.

Lemma factor_composes_witness :
  (conversion_factor units !! "density" = Some (densityUnit_factor units) ∧
   is_Some (densityUnit_factor units !! "Molar") ∧
   is_Some (densityUnit_factor units !! "SPC") ∧
   is_Some (densityUnit_factor units !! "nm^{-3}")) ∧
  ∃ f12 f23 f13 q13,
    get_conversion_factor "density" "Molar" "SPC" units = (Return f12, units) ∧
    get_conversion_factor "density" "SPC" "nm^{-3}" units =
      (Return f23, units) ∧
    get_conversion_factor "density" "Molar" "nm^{-3}" units =
      (Return f13, units) ∧
    float_to_Q f13 = Some q13 ∧
    float_within_rel_tol (1 # 10 ^ 15) (f12 * f23) q13 = true.
Proof.
  assert (is_Some (densityUnit_factor units !! "Molar")) as H1
    by (eexists; vm_compute; reflexivity).
  assert (is_Some (densityUnit_factor units !! "SPC")) as H2
    by (eexists; vm_compute; reflexivity).
  assert (is_Some (densityUnit_factor units !! "nm^{-3}")) as H3
    by (eexists; vm_compute; reflexivity).
  split.
  - split; [vm_compute; reflexivity|exact (conj H1 (conj H2 H3))].
  - apply (factor_composes "density" "Molar" "SPC" "nm^{-3}"
             (densityUnit_factor units));
      [vm_compute; reflexivity|exact H1|exact H2|exact H3].
Defined.

(** X4: for a quantity type other than [length], [density] and [time],
    [get_conversion_factor] raises the [KeyError] of the outer subscription,
    carrying the type name, whatever the two unit names are (registered or
    not); the globals are untouched. *)
Theorem unknown_quantity_type_is_KeyError (T u1 u2 : string) :
  T ≠ "length" → T ≠ "density" → T ≠ "time" →
  get_conversion_factor T u1 u2 units = (Raise (KeyError T), units).
Proof.
  intros Hl Hd Ht. apply get_conversion_factor_no_table.
  by apply conversion_factor_other_type.
Qed.

Lemma unknown_quantity_type_is_KeyError_witness :
  ("mass" ≠ "length" ∧ "mass" ≠ "density" ∧ "mass" ≠ "time") ∧
  get_conversion_factor "mass" "nm" "Angstrom" units =
    (Raise (KeyError "mass"), units).
Proof.
  split.
  - split; [|split]; discriminate.
  - apply (unknown_quantity_type_is_KeyError "mass" "nm" "Angstrom");
      discriminate.
Defined.

(** X5: when [u1] or [u2] is not a registered unit name, the [ValueError]
    [convert] raises carries [u1], [u2] and the list [unit_types.keys()],
    which holds the 19 registered unit names, each once, and nothing else. *)
Theorem unknown_unit_error_lists_registered_names (x : value)
    (u1 u2 : string) :
  ¬ registered u1 ∨ ¬ registered u2 →
  ∃ known,
    convert x u1 u2 units =
      (Raise (ValueError (UnitsMustBeOneOf known u1 u2)), units) ∧
    NoDup known ∧ length known = 19%nat ∧
    ∀ u, u ∈ known ↔ registered u.
Proof.
  intros H. exists (keys (unit_types units)).
  split; [|split; [|split]].
  - apply convert_unknown.
    destruct H as [H|H]; [left|right]; by apply unit_types_unregistered.
  - apply keys_unit_types_NoDup.
  - vm_compute. reflexivity.
  - apply keys_unit_types_registered.
Qed.

Lemma unknown_unit_error_lists_registered_names_witness :
  (¬ registered "nm" ∨ ¬ registered "mile") ∧
  ∃ known,
    convert (PyFloat 1.5) "nm" "mile" units =
      (Raise (ValueError (UnitsMustBeOneOf known "nm" "mile")), units) ∧
    NoDup known ∧ length known = 19%nat ∧
    ∀ u, u ∈ known ↔ registered u.
Proof.
  assert (¬ registered "mile") as Hmile.
  { intros [T HT]. apply unit_types_lookup in HT. vm_compute in HT.
    discriminate HT. }
  split; [right; exact Hmile|].
  exact (unknown_unit_error_lists_registered_names (PyFloat 1.5) "nm" "mile"
           (or_intror Hmile)).
Defined.

(** X6: between two units registered under one quantity type, [convert]
    returns a float with the sign of its argument (a NaN exactly for a NaN),
    and returns zeros of either sign, infinities and NaN unchanged: a
    conversion never flips a sign and never makes a number a NaN. *)
Theorem convert_keeps_sign (x : float) (T u1 u2 : string)
    (tbl : gmap string float) :
  conversion_factor units !! T = Some tbl →
  is_Some (tbl !! u1) → is_Some (tbl !! u2) →
  ∃ v, convert (PyFloat x) u1 u2 units = (Return (PyFloat v), units) ∧
       sign_of v = sign_of x ∧
       match Prim2SF x with
       | S754_finite _ _ _ => True
       | S754_zero _ | S754_infinity _ | S754_nan => v = x
       end.
Proof.
  intros HT [f1 H1] [f2 H2]. exists (x * (f2 / f1)).
  split; [by rewrite (convert_registered (PyFloat x) T u1 u2 tbl f1 f2)|].
  destruct (factor_positive_finite T u1 u2 tbl f1 f2 HT H1 H2) as (m & e & Hq).
  split; [by apply (float_mul_pos_sign x (f2 / f1) m e)|].
  destruct (Prim2SF x) as [s|s| |s mx ex] eqn:Ex; [..|exact I];
    apply Prim2SF_inj; rewrite mul_spec, Hq, Ex; unfold SF64mul, SFmul;
    by rewrite ?xorb_false_r.
Qed.

Lemma convert_keeps_sign_witness :
  (conversion_factor units !! "time" = Some (timeUnit_factor units) ∧
   is_Some (timeUnit_factor units !! "AKMA") ∧
   is_Some (timeUnit_factor units !! "second")) ∧
  ∃ v, convert (PyFloat (-0)) "AKMA" "second" units =
         (Return (PyFloat v), units) ∧
       sign_of v = sign_of (-0) ∧
       match Prim2SF (-0) with
       | S754_finite _ _ _ => True
       | S754_zero _ | S754_infinity _ | S754_nan => v = (-0)
       end.
Proof.
  assert (is_Some (timeUnit_factor units !! "AKMA")) as H1
    by (eexists; vm_compute; reflexivity).
  assert (is_Some (timeUnit_factor units !! "second")) as H2
    by (eexists; vm_compute; reflexivity).
  split.
  - split; [vm_compute; reflexivity|exact (conj H1 H2)].
  - apply (convert_keeps_sign (-0) "time" "AKMA" "second"
             (timeUnit_factor units));
      [vm_compute; reflexivity|exact H1|exact H2].
Defined.

(** X7: every stored scale factor agrees with the exact value of the
    expression that defines it in the source, read as arithmetic on the
    decimal numbers it spells, to a relative error of at most 2^-52 (one unit
    in the last place): the roundings of the literals, products and
    divisions do not add up to more. *)
Theorem stored_factors_accurate (T u : string) (tbl : gmap string float)
    (f : float) :
  conversion_factor units !! T = Some tbl → tbl !! u = Some f →
  ∃ q, (T, u, q) ∈ exact_registry ∧
       float_within_rel_tol (1 # 2 ^ 52) f q = true.
Proof.
  intros HT Hu.
  assert (forallb (fun '(T, u, f) =>
            existsb (fun '(T', u', q) =>
                       String.eqb T T' && String.eqb u u' &&
                       float_within_rel_tol (1 # 2 ^ 52) f q)
                    exact_registry) contractual_registry = true) as Hb
    by (vm_compute; reflexivity).
  rewrite forallb_forall in Hb.
  pose proof (registered_listed T u tbl f HT Hu) as L.
  apply list_elem_of_In, Hb in L. apply existsb_exists in L.
  destruct L as [[[T' u'] q] [Hin Hq]].
  apply andb_true_iff in Hq as [Hq Htol].
  apply andb_true_iff in Hq as [->%String.eqb_eq ->%String.eqb_eq].
  exists q. split; [by apply list_elem_of_In|exact Htol].
Qed.

Lemma stored_factors_accurate_witness :
  (conversion_factor units !! "density" = Some (densityUnit_factor units) ∧
   densityUnit_factor units !! "TIP4P" =
     Some (1 / (1e-24 * 6.02214179e+23 * 1.001 / 18.016))) ∧
  ∃ q, ("density", "TIP4P", q) ∈ exact_registry ∧
       float_within_rel_tol (1 # 2 ^ 52)
         (1 / (1e-24 * 6.02214179e+23 * 1.001 / 18.016)) q = true.
Proof.
  split.
  - split; vm_compute; reflexivity.
  - apply (stored_factors_accurate "density" "TIP4P"
             (densityUnit_factor units));
      vm_compute; reflexivity.
Defined.

(** A name that a run of assignments assigns ends with a type the run
    assigned to it. *)
Lemma assignments_sound_in (l : list (string * string))
    (acc : gmap string string) (u t : string) :
  u ∈ l.*1 →
  foldl (fun m '(unit, utype) => <[unit := utype]> m) acc l !! u = Some t →
  (u, t) ∈ l.
Proof.
  revert acc. induction l as [|[u0 t0] l IH]; intros acc Hin H.
  - by apply elem_of_nil in Hin.
  - simpl in H. destruct (decide (u ∈ l.*1)) as [Hl|Hl].
    + right. by apply (IH (<[u0 := t0]> acc)).
    + rewrite assignments_other in H by done.
      rewrite fmap_cons, elem_of_cons in Hin. destruct Hin as [->|Hin]; [|done].
      simpl in H. rewrite lookup_insert_eq in H. injection H as ->. by left.
Qed.

(** X8: for any dictionary of tables and any order of the scan, the loop
    that builds [unit_types] maps a name only to a quantity type whose table
    holds the name, maps every name of every table to some type, and, when
    several tables hold a name, maps it to the type of the table scanned
    last: a later table silently takes over a shared name. *)
Theorem build_unit_types_last_scanned_wins
    (items_of : gmap string (gmap string float) →
                list (string * gmap string float))
    (keys_of : gmap string float → list string)
    (tables : gmap string (gmap string float)) :
  (∀ u T, build_unit_types items_of keys_of tables !! u = Some T →
          ∃ tbl, (T, tbl) ∈ items_of tables ∧ u ∈ keys_of tbl) ∧
  (∀ u T tbl, (T, tbl) ∈ items_of tables → u ∈ keys_of tbl →
              is_Some (build_unit_types items_of keys_of tables !! u)) ∧
  (∀ u T tbl before after,
     items_of tables = before ++ (T, tbl) :: after →
     u ∈ keys_of tbl →
     (∀ T' tbl', (T', tbl') ∈ after → u ∉ keys_of tbl') →
     build_unit_types items_of keys_of tables !! u = Some T).
Proof.
  rewrite build_unit_types_assignments.
  split; [|split].
  - intros u T H. apply assignments_sound in H as [H|H].
    + by apply elem_of_assignments.
    + by rewrite lookup_empty in H.
  - intros u T tbl HT Hu. apply assignments_complete.
    apply list_elem_of_fmap. exists (u, T). split; [done|].
    apply elem_of_assignments. by exists tbl.
  - intros u T tbl before after -> Hu Hafter.
    unfold assignments. rewrite bind_app, bind_cons, foldl_app, foldl_app.
    rewrite assignments_other.
    + assert (u ∈ ((fun unit => (unit, T)) <$> keys_of tbl).*1) as Hin.
      { apply list_elem_of_fmap. exists (u, T). split; [done|].
        by apply (list_elem_of_fmap_2 (fun unit => (unit, T))). }
      destruct (assignments_complete _
                  (foldl (fun m '(unit, utype) => <[unit := utype]> m) ∅
                     (before ≫= (fun '(utype, ufactor) =>
                        (fun unit => (unit, utype)) <$> keys_of ufactor)))
                  u Hin) as [t Ht].
      rewrite Ht. f_equal.
      apply assignments_sound_in in Ht; [|exact Hin].
      apply list_elem_of_fmap in Ht as [u' [Heq _]]. by injection Heq.
    + intros [[u' t'] [-> Hin]]%list_elem_of_fmap.
      apply (elem_of_assignments after keys_of) in Hin as [tbl' [Ht' Hu']].
      by apply (Hafter t' tbl').
Qed.

Lemma build_unit_types_last_scanned_wins_witness :
  let length_table : gmap string float := {[ "A" := 1 ]} in
  let current_table : gmap string float := {[ "A" := 1 ]} in
  let scan := [("length", length_table); ("current", current_table)] in
  (scan = [("length", length_table)] ++ ("current", current_table) :: [] ∧
   "A" ∈ keys current_table ∧
   ∀ T' tbl', (T', tbl') ∈ @nil (string * gmap string float) →
              "A" ∉ keys tbl') ∧
  build_unit_types (fun _ => scan) keys ∅ !! "A" = Some "current".
Proof.
  intros length_table current_table scan.
  assert ("A" ∈ keys current_table) as HA by (vm_compute; left).
  assert (∀ T' tbl', (T', tbl') ∈ @nil (string * gmap string float) →
                     "A" ∉ keys tbl') as Hnil
    by (intros T' tbl' Hin; by apply elem_of_nil in Hin).
  split; [exact (conj eq_refl (conj HA Hnil))|].
  destruct (build_unit_types_last_scanned_wins (fun _ => scan) keys ∅)
    as (_ & _ & H).
  exact (H "A" "current" current_table [("length", length_table)] []
           eq_refl HA Hnil).
Defined.

(** X9: the units the H5MD reader declares for its data are units of the
    registry of [units.py]: under each quantity type the class names, the
    declared unit is registered with the scale factor 1.0, so the factor
    from the reader's unit to any unit of that type is that unit's stored
    factor. *)
Theorem reader_units_are_base_units (T u : string) :
  H5MDReader_class.units !! T = Some u →
  ∃ tbl, conversion_factor units !! T = Some tbl ∧ tbl !! u = Some 1 ∧
         unit_types units !! u = Some T ∧
         ∀ u' f, tbl !! u' = Some f →
                 get_conversion_factor T u u' units = (Return f, units).
Proof.
  unfold H5MDReader_class.units. intros H.
  apply lookup_insert_Some in H as [[<- <-]|[_ H]];
    [|apply lookup_insert_Some in H as [[<- <-]|[_ H]];
      [|by rewrite lookup_empty in H]].
  - exists (lengthUnit_factor units).
    assert (lengthUnit_factor units !! "Angstrom" = Some 1) as H1
      by (vm_compute; reflexivity).
    split; [apply conversion_factor_length|]. split; [exact H1|].
    split; [by vm_compute|].
    intros u' f Hf.
    rewrite (get_conversion_factor_registered "length" "Angstrom" u'
               (lengthUnit_factor units) 1 f conversion_factor_length H1 Hf).
    by rewrite (factor_over_one "length" u' (lengthUnit_factor units) f
                  conversion_factor_length Hf).
  - exists (timeUnit_factor units).
    assert (timeUnit_factor units !! "ps" = Some 1) as H1
      by (vm_compute; reflexivity).
    split; [apply conversion_factor_time|]. split; [exact H1|].
    split; [by vm_compute|].
    intros u' f Hf.
    rewrite (get_conversion_factor_registered "time" "ps" u'
               (timeUnit_factor units) 1 f conversion_factor_time H1 Hf).
    by rewrite (factor_over_one "time" u' (timeUnit_factor units) f
                  conversion_factor_time Hf).
Qed.

Lemma reader_units_are_base_units_witness :
  H5MDReader_class.units !! "time" = Some "ps" ∧
  ∃ tbl, conversion_factor units !! "time" = Some tbl ∧
         tbl !! "ps" = Some 1 ∧
         unit_types units !! "ps" = Some "time" ∧
         ∀ u' f, tbl !! u' = Some f →
                 get_conversion_factor "time" "ps" u' units =
                   (Return f, units).
Proof.
  split.
  - vm_compute. reflexivity.
  - apply (reader_units_are_base_units "time" "ps"). vm_compute. reflexivity.
Defined.

(** X10: [get_conversion_factor] does not consult [unit_types]: asked for a
    factor between units registered under two different quantity types, it
    raises the [KeyError] of the unit that the given type's table lacks
    ([u2] under the type of [u1], [u1] under the type of [u2]), where
    [convert] raises its [ValueError] "Cannot convert between unit types". *)
Theorem cross_type_factor_is_KeyError (x : value) (T1 T2 u1 u2 : string) :
  registered_under T1 u1 → registered_under T2 u2 → T1 ≠ T2 →
  get_conversion_factor T1 u1 u2 units = (Raise (KeyError u2), units) ∧
  get_conversion_factor T2 u1 u2 units = (Raise (KeyError u1), units) ∧
  convert x u1 u2 units = (Raise (ValueError (CannotConvert T1 T2)), units).
Proof.
  intros [tbl1 [HT1 H1]] [tbl2 [HT2 H2]] Hne.
  assert (tbl1 !! u2 = None) as N2.
  { apply eq_None_not_Some. intros HS.
    by apply Hne, eq_sym, (owner_unique T2 T1 u2 tbl2 tbl1). }
  assert (tbl2 !! u1 = None) as N1.
  { apply eq_None_not_Some. intros HS.
    by apply Hne, (owner_unique T1 T2 u1 tbl1 tbl2). }
  split; [|split].
  - rewrite (get_conversion_factor_missing T1 u1 u2 tbl1 units HT1
               (or_intror N2)).
    by rewrite N2.
  - rewrite (get_conversion_factor_missing T2 u1 u2 tbl2 units HT2
               (or_introl N1)).
    destruct H2 as [f2 H2]. by rewrite H2.
  - apply convert_incompatible; [| |exact Hne].
    + by apply (unit_types_registered T1 u1 tbl1).
    + by apply (unit_types_registered T2 u2 tbl2).
Qed.

Lemma cross_type_factor_is_KeyError_witness :
  (registered_under "length" "nm" ∧ registered_under "time" "ps" ∧
   "length" ≠ "time") ∧
  get_conversion_factor "length" "nm" "ps" units =
    (Raise (KeyError "ps"), units) ∧
  get_conversion_factor "time" "nm" "ps" units =
    (Raise (KeyError "nm"), units) ∧
  convert (PyFloat 1.0) "nm" "ps" units =
    (Raise (ValueError (CannotConvert "length" "time")), units).
Proof.
  assert (registered_under "length" "nm") as Hnm.
  { exists (lengthUnit_factor units).
    split; [|eexists]; vm_compute; reflexivity. }
  assert (registered_under "time" "ps") as Hps.
  { exists (timeUnit_factor units).
    split; [|eexists]; vm_compute; reflexivity. }
  assert ("length" ≠ "time") as Hne by discriminate.
  split; [exact (conj Hnm (conj Hps Hne))|].
  exact (cross_type_factor_is_KeyError (PyFloat 1.0) "length" "time" "nm" "ps"
           Hnm Hps Hne).
Defined.
